(** * Meeting API (main.py): a shallow embedding and its verified properties

    The program is a FastAPI service that keeps a list of meeting records in
    one JSON file, [data.json].  Every handler reads the whole file, works on
    the decoded Python value and writes the whole file back.

    The embedding follows the source closely:
    - JSON documents are the Python values [json.loads] produces ([JSON]);
      a [dict] is an association list, since Python keeps insertion order
      and [json.dump] prints in that order;
    - the dynamic operations the handlers use ([d[k]], [m.get], [len],
      iteration, [append], [update]) are modelled with the exceptions they
      raise on values of the wrong type;
    - the handlers run in a state-and-exception monad over the file;
    - [json.loads] / [json.dump] belong to Python's library: the handlers
      are parametrised over them, and a reference codec ([Json]) is used to
      evaluate the handlers on concrete files;
    - pydantic's request models ([MeetingCreate], [MeetingUpdate],
      [MeetingsData]) are records with their validation and [model_dump];
    - a write truncates the file and then fails, as [json.dump] does, when
      a string of the document cannot be encoded; a response is rendered
      as FastAPI renders it: a response model sends [null] for a float
      that is not finite, and a value returned without a response model
      is answered 500 when it holds one.

    A Python [str] is represented by the bytes of its UTF-8 encoding, a
    lone surrogate by the three bytes the same scheme gives it; such a
    [str] is the one that cannot be written to a UTF-8 file or sent in a
    response. *)

From Stdlib Require Import ZArith NArith String Ascii.
From stdpp Require Import base tactics option list strings pretty.

Set Warnings "-register-all".

(** ** Python values *)

(** A Python [float]: a finite number, carried by its [repr], or one of
    the three values JSON has no notation for. *)
Inductive float_value : Type :=
| Finite (repr : string)
| NaN
| Infinity
| NegInfinity.

Inductive JSON : Type :=
| JNull
| JBool (b : bool)
| JInt (z : Z)
| JFloat (x : float_value)
| JStr (s : string)
| JList (items : list JSON)
| JDict (kvs : list (string * JSON)).

Abbreviation dict := (list (string * JSON)).

(** [type(v).__name__], used in the text of Python's error messages. *)
Definition type_name (v : JSON) : string :=
  match v with
  | JNull => "NoneType"
  | JBool _ => "bool"
  | JInt _ => "int"
  | JFloat _ => "float"
  | JStr _ => "str"
  | JList _ => "list"
  | JDict _ => "dict"
  end.

(** *** Dictionaries: insertion-ordered, first binding of a key is the binding *)

Fixpoint dict_get (k : string) (d : dict) : option JSON :=
  match d with
  | [] => None
  | (k', v) :: rest => if String.eqb k' k then Some v else dict_get k rest
  end.

(** [d[k] = v]: an existing key keeps its position, a new key goes last. *)
Fixpoint dict_set (k : string) (v : JSON) (d : dict) : dict :=
  match d with
  | [] => [(k, v)]
  | (k', v') :: rest =>
      if String.eqb k' k then (k', v) :: rest else (k', v') :: dict_set k v rest
  end.

(** [d.update(upd)]: the items of [upd] are assigned in order. *)
Definition dict_update (d upd : dict) : dict :=
  foldl (fun acc kv => dict_set kv.1 kv.2 acc) d upd.

Definition dict_keys (d : dict) : list string := d.*1.

Definition dict_has (k : string) (d : dict) : bool :=
  match dict_get k d with Some _ => true | None => false end.

(** ** Exceptions

    The exceptions the handlers can meet.  The message texts are CPython's,
    cut short where they go on with a position or an offending byte. *)

Inductive exn : Type :=
| HTTPException (status_code : Z) (detail : string)
| JSONDecodeError (msg : string)
| UnicodeDecodeError (msg : string)
| UnicodeEncodeError (msg : string)
| FileNotFoundError (msg : string)
| KeyError (key : string)
| TypeError (msg : string)
| AttributeError (msg : string)
| IndexError (msg : string)
| RecursionError (msg : string).

(** [str(e)] *)
Definition exn_str (e : exn) : string :=
  match e with
  | HTTPException c d => d
  | JSONDecodeError m => m
  | UnicodeDecodeError m => m
  | UnicodeEncodeError m => m
  | FileNotFoundError m => m
  | KeyError k => "'" +:+ k +:+ "'"
  | TypeError m => m
  | AttributeError m => m
  | IndexError m => m
  | RecursionError m => m
  end.

(** [isinstance(e, HTTPException)] *)
Definition is_HTTPException (e : exn) : bool :=
  match e with HTTPException _ _ => true | _ => false end.

Inductive result (A : Type) : Type :=
| Ok (a : A)
| Raise (e : exn).
Arguments Ok {A} a.
Arguments Raise {A} e.

#[global] Instance result_ret : MRet result := fun A a => Ok a.
#[global] Instance result_bind : MBind result := fun A B f r =>
  match r with Ok a => f a | Raise e => Raise e end.

(** ** Strings as UTF-8 *)

Definition byte_val (c : ascii) : N := N_of_ascii c.

Definition is_continuation (c : ascii) : bool :=
  ((128 <=? byte_val c) && (byte_val c <=? 191))%N.

Definition in_range (lo hi : N) (c : ascii) : bool :=
  ((lo <=? byte_val c) && (byte_val c <=? hi))%N.

(** The strict decoder Python applies to a file opened with
    [encoding='utf-8']: no overlong forms, no surrogates, nothing above
    U+10FFFF. *)
Fixpoint utf8_valid (s : string) : bool :=
  match s with
  | EmptyString => true
  | String b0 r0 =>
      if (byte_val b0 <? 128)%N then utf8_valid r0
      else if in_range 194 223 b0 then
        match r0 with
        | String b1 r1 => is_continuation b1 && utf8_valid r1
        | _ => false
        end
      else if in_range 224 239 b0 then
        match r0 with
        | String b1 (String b2 r2) =>
            (if (byte_val b0 =? 224)%N then in_range 160 191 b1
             else if (byte_val b0 =? 237)%N then in_range 128 159 b1
             else is_continuation b1)
            && is_continuation b2 && utf8_valid r2
        | _ => false
        end
      else if in_range 240 244 b0 then
        match r0 with
        | String b1 (String b2 (String b3 r3)) =>
            (if (byte_val b0 =? 240)%N then in_range 144 191 b1
             else if (byte_val b0 =? 244)%N then in_range 128 143 b1
             else is_continuation b1)
            && is_continuation b2 && is_continuation b3 && utf8_valid r3
        | _ => false
        end
      else false
  end.

Definition byte_of (n : N) : ascii := ascii_of_N n.

(** The UTF-8 encoding of one code point. *)
Definition utf8_encode (cp : N) : string :=
  if (cp <? 128)%N then String (byte_of cp) ""
  else if (cp <? 2048)%N then
    String (byte_of (192 + cp / 64)) (String (byte_of (128 + cp mod 64)) "")
  else if (cp <? 65536)%N then
    String (byte_of (224 + cp / 4096))
      (String (byte_of (128 + (cp / 64) mod 64))
         (String (byte_of (128 + cp mod 64)) ""))
  else
    String (byte_of (240 + cp / 262144))
      (String (byte_of (128 + (cp / 4096) mod 64))
         (String (byte_of (128 + (cp / 64) mod 64))
            (String (byte_of (128 + cp mod 64)) ""))).

(** The characters of a [str]: a lead byte with the continuation bytes
    that follow it. *)
Fixpoint chars_aux (s : string) : string * list string :=
  match s with
  | EmptyString => ("", [])
  | String c rest =>
      let '(pending, chars) := chars_aux rest in
      if is_continuation c then (String c pending, chars)
      else ("", String c pending :: chars)
  end.

Definition utf8_chars (s : string) : list string := (chars_aux s).2.

(** The code points for which [str.isspace] holds; [str.strip()] removes
    them at both ends. *)
Definition whitespace_code_points : list N :=
  [9; 10; 11; 12; 13; 28; 29; 30; 31; 32; 133; 160; 5760;
   8192; 8193; 8194; 8195; 8196; 8197; 8198; 8199; 8200; 8201; 8202;
   8232; 8233; 8239; 8287; 12288]%N.

Definition isspace (ch : string) : bool :=
  existsb (fun cp => String.eqb (utf8_encode cp) ch) whitespace_code_points.

Fixpoint lstrip_chars (chars : list string) : list string :=
  match chars with
  | [] => []
  | ch :: rest => if isspace ch then lstrip_chars rest else chars
  end.

Definition str_strip (s : string) : string :=
  let chars := lstrip_chars (utf8_chars s) in
  String.concat "" (rev (lstrip_chars (rev chars))).

(** A text made of whitespace characters only (the empty one included). *)
Definition whitespace_only (s : string) : bool :=
  forallb isspace (utf8_chars s).

(** Truth value of a [str]: non-empty. *)
Definition str_bool (s : string) : bool :=
  match s with EmptyString => false | _ => true end.

(** ** The dynamic operations of the handlers

    Each one returns the value Python computes or raises the exception
    Python raises for an operand of that type. *)

(** [obj[key]] with a [str] key. *)
Definition py_getitem (obj : JSON) (key : string) : result JSON :=
  match obj with
  | JDict kvs =>
      match dict_get key kvs with
      | Some v => Ok v
      | None => Raise (KeyError key)
      end
  | JList _ => Raise (TypeError "list indices must be integers or slices, not str")
  | JStr _ => Raise (TypeError "string indices must be integers, not 'str'")
  | _ => Raise (TypeError ("'" +:+ type_name obj +:+ "' object is not subscriptable"))
  end.

(** [obj[key] = v] with a [str] key. *)
Definition py_setitem (obj : JSON) (key : string) (v : JSON) : result JSON :=
  match obj with
  | JDict kvs => Ok (JDict (dict_set key v kvs))
  | JList _ => Raise (TypeError "list indices must be integers or slices, not str")
  | _ => Raise (TypeError ("'" +:+ type_name obj +:+
                           "' object does not support item assignment"))
  end.

(** [obj.get(key)] *)
Definition py_get (obj : JSON) (key : string) : result JSON :=
  match obj with
  | JDict kvs => Ok (default JNull (dict_get key kvs))
  | _ => Raise (AttributeError ("'" +:+ type_name obj +:+
                                "' object has no attribute 'get'"))
  end.

(** [obj.append(x)], returning the list after the call. *)
Definition py_append (obj x : JSON) : result JSON :=
  match obj with
  | JList items => Ok (JList (items ++ [x]))
  | _ => Raise (AttributeError ("'" +:+ type_name obj +:+
                                "' object has no attribute 'append'"))
  end.

(** [len(obj)] *)
Definition py_len (obj : JSON) : result nat :=
  match obj with
  | JList items => Ok (length items)
  | JDict kvs => Ok (length kvs)
  | JStr s => Ok (length (utf8_chars s))
  | _ => Raise (TypeError ("object of type '" +:+ type_name obj +:+ "' has no len()"))
  end.

(** The values [for x in obj] visits: the items of a list, the keys of a
    dict, the characters of a str. *)
Definition py_iter (obj : JSON) : result (list JSON) :=
  match obj with
  | JList items => Ok items
  | JDict kvs => Ok (JStr <$> dict_keys kvs)
  | JStr s => Ok (JStr <$> utf8_chars s)
  | _ => Raise (TypeError ("'" +:+ type_name obj +:+ "' object is not iterable"))
  end.

(** [obj[i]] with an [int] index that is not negative. *)
Definition py_getitem_int (obj : JSON) (i : nat) : result JSON :=
  match obj with
  | JList items =>
      match items !! i with
      | Some v => Ok v
      | None => Raise (IndexError "list index out of range")
      end
  | JStr s =>
      match utf8_chars s !! i with
      | Some ch => Ok (JStr ch)
      | None => Raise (IndexError "string index out of range")
      end
  | JDict _ => Raise (KeyError (pretty i))
  | _ => Raise (TypeError ("'" +:+ type_name obj +:+ "' object is not subscriptable"))
  end.

(** The list [obj] after [obj[i]] has been mutated into [v]. *)
Definition py_setitem_int (obj : JSON) (i : nat) (v : JSON) : result JSON :=
  match obj with
  | JList items =>
      if decide (i < length items) then Ok (JList (<[i:=v]> items))
      else Raise (IndexError "list assignment index out of range")
  | JDict _ => Raise (KeyError (pretty i))
  | _ => Raise (TypeError ("'" +:+ type_name obj +:+
                           "' object does not support item assignment"))
  end.

(** [v == s] for a [str] s: only an equal str is equal to it. *)
Definition py_eq_str (v : JSON) (s : string) : bool :=
  match v with
  | JStr s' => String.eqb s' s
  | _ => false
  end.

(** [obj.update(upd)], returning the dict after the call. *)
Definition py_update (obj : JSON) (upd : dict) : result JSON :=
  match obj with
  | JDict kvs => Ok (JDict (dict_update kvs upd))
  | _ => Raise (AttributeError ("'" +:+ type_name obj +:+
                                "' object has no attribute 'update'"))
  end.

(** [{"meetings": []}] *)
Definition empty_document : JSON := JDict [("meetings", JList [])].

(** ** What can be written and what can be sent

    A text goes to a UTF-8 file, or into a response, only if every [str] in
    it can be encoded: a lone surrogate cannot.  A response is rendered
    with [allow_nan=False], so it cannot hold a float that is not finite; a
    response model sends such a float as [null]. *)

(** Every [str] of the value, keys included, encodes as UTF-8. *)
Fixpoint encodable (v : JSON) : bool :=
  match v with
  | JStr s => utf8_valid s
  | JList items => forallb encodable items
  | JDict kvs => forallb (fun '(k, x) => utf8_valid k && encodable x) kvs
  | _ => true
  end.

Definition is_finite (x : float_value) : bool :=
  match x with Finite _ => true | _ => false end.

(** Every float of the value is finite. *)
Fixpoint finite_floats (v : JSON) : bool :=
  match v with
  | JFloat x => is_finite x
  | JList items => forallb finite_floats items
  | JDict kvs => forallb (fun '(k, x) => finite_floats x) kvs
  | _ => true
  end.

(** The value as a response model serialises it ([mode="json"]): a float
    that is not finite becomes [null]. *)
Fixpoint ser_json (v : JSON) : JSON :=
  match v with
  | JFloat x => if is_finite x then v else JNull
  | JList items => JList (ser_json <$> items)
  | JDict kvs => JDict ((fun '(k, x) => (k, ser_json x)) <$> kvs)
  | _ => v
  end.

(** What [str(e)] says of the encoding error of a lone surrogate (the
    character and its position, which the message also names, left out). *)
Definition surrogates_not_allowed : string :=
  "'utf-8' codec can't encode character: surrogates not allowed".

(** ** The pydantic models

    A request body reaches a handler only after FastAPI has validated it
    against the handler's parameter type; [validate] returns [None] when it
    raises a validation error.  All three request models are declared with
    optional fields of type [Optional[str]] or [Optional[List[str]]]; the
    two meeting models keep unknown keys ([extra = "allow"]). *)

Definition validate_str (v : JSON) : option string :=
  match v with JStr s => Some s | _ => None end.

Definition validate_list_str (v : JSON) : option (list string) :=
  match v with JList items => mapM validate_str items | _ => None end.

Definition validate_dict (v : JSON) : option dict :=
  match v with JDict kvs => Some kvs | _ => None end.

(** A field declared [Optional[T] = None]: absent or [null] gives [None]. *)
Definition validate_optional {A} (val : JSON -> option A) (v : option JSON)
  : option (option A) :=
  match v with
  | None | Some JNull => Some None
  | Some x => Some <$> val x
  end.

Definition dump_optional {A} (to_json : A -> JSON) (o : option A) : JSON :=
  from_option to_json JNull o.

Definition dump_list_str (l : list string) : JSON := JList (JStr <$> l).

(** The field names the two meeting models declare, in declaration order. *)
Definition meeting_fields : list string :=
  ["title"; "date"; "time"; "participants"; "agenda"; "notes"].

(** The keys a model with [extra = "allow"] keeps besides its fields. *)
Definition extra_of (kvs : dict) : dict :=
  filter (fun kv => kv.1 ∉ meeting_fields) kvs.

Module MeetingCreate.

Record t : Type := {
  title : string;
  date : option string;
  time : option string;
  participants : option (list string);
  agenda : option string;
  notes : option string;
  extra : dict
}.

Definition validate (body : JSON) : option t :=
  kvs ← validate_dict body;
  title ← dict_get "title" kvs ≫= validate_str;
  date ← validate_optional validate_str (dict_get "date" kvs);
  time ← validate_optional validate_str (dict_get "time" kvs);
  participants ← validate_optional validate_list_str (dict_get "participants" kvs);
  agenda ← validate_optional validate_str (dict_get "agenda" kvs);
  notes ← validate_optional validate_str (dict_get "notes" kvs);
  Some {| title := title; date := date; time := time;
          participants := participants; agenda := agenda; notes := notes;
          extra := extra_of kvs |}.

(** [meeting.model_dump()]: every declared field, then the extra keys. *)
Definition model_dump (m : t) : dict :=
  [("title", JStr (title m));
   ("date", dump_optional JStr (date m));
   ("time", dump_optional JStr (time m));
   ("participants", dump_optional dump_list_str (participants m));
   ("agenda", dump_optional JStr (agenda m));
   ("notes", dump_optional JStr (notes m))]
  ++ extra m.

End MeetingCreate.

Module MeetingUpdate.

(** Every field is optional, and pydantic remembers which fields the body
    set: [None] is a field the body left out, [Some None] one it set to
    [null]. *)
Record t : Type := {
  title : option (option string);
  date : option (option string);
  time : option (option string);
  participants : option (option (list string));
  agenda : option (option string);
  notes : option (option string);
  extra : dict
}.

Definition validate_field {A} (val : JSON -> option A) (v : option JSON)
  : option (option (option A)) :=
  match v with
  | None => Some None
  | Some x => Some <$> validate_optional val (Some x)
  end.

Definition validate (body : JSON) : option t :=
  kvs ← validate_dict body;
  title ← validate_field validate_str (dict_get "title" kvs);
  date ← validate_field validate_str (dict_get "date" kvs);
  time ← validate_field validate_str (dict_get "time" kvs);
  participants ← validate_field validate_list_str (dict_get "participants" kvs);
  agenda ← validate_field validate_str (dict_get "agenda" kvs);
  notes ← validate_field validate_str (dict_get "notes" kvs);
  Some {| title := title; date := date; time := time;
          participants := participants; agenda := agenda; notes := notes;
          extra := extra_of kvs |}.

Definition dump_field {A} (name : string) (to_json : A -> JSON)
    (f : option (option A)) : dict :=
  match f with
  | None => []
  | Some o => [(name, dump_optional to_json o)]
  end.

(** [meeting_update.model_dump(exclude_unset=True)]: the fields the body
    set, in declaration order, then the extra keys. *)
Definition model_dump_exclude_unset (m : t) : dict :=
  dump_field "title" JStr (title m)
  ++ dump_field "date" JStr (date m)
  ++ dump_field "time" JStr (time m)
  ++ dump_field "participants" dump_list_str (participants m)
  ++ dump_field "agenda" JStr (agenda m)
  ++ dump_field "notes" JStr (notes m)
  ++ extra m.

End MeetingUpdate.

Module MeetingsData.

Record t : Type := { meetings : list dict }.

(** [meetings: List[dict]] is a required field; other keys are ignored. *)
Definition validate (body : JSON) : option t :=
  kvs ← validate_dict body;
  v ← dict_get "meetings" kvs;
  match v with
  | JList items => ms ← mapM validate_dict items; Some {| meetings := ms |}
  | _ => None
  end.

Definition model_dump (d : t) : JSON :=
  JDict [("meetings", JList (JDict <$> meetings d))].

(** The JSON body FastAPI sends for a [response_model=MeetingsData]. *)
Definition to_json (d : t) : JSON := ser_json (model_dump d).

(** [hasattr(data, 'meetings')]: a validated model has its field. *)
Definition hasattr_meetings (d : t) : bool := true.

End MeetingsData.

Module SuccessResponse.

Record t : Type := {
  success : bool;
  message : string;
  data : option JSON   (* [Optional[Any] = None] *)
}.

(** The JSON body FastAPI sends for a [response_model=SuccessResponse]. *)
Definition to_json (r : t) : JSON :=
  JDict [("success", JBool (success r));
         ("message", JStr (message r));
         ("data", from_option ser_json JNull (data r))].

End SuccessResponse.

(** ** The file and the handler monad

    The state is the content of [DATA_FILE]: [None] while the file does not
    exist, otherwise its bytes.  An exception leaves the writes made before
    it in place. *)

Definition fs : Type := option string.

Definition M (A : Type) : Type := fs -> result A * fs.

#[global] Instance M_ret : MRet M := fun A a s => (Ok a, s).
#[global] Instance M_bind : MBind M := fun A B f m s =>
  match m s with
  | (Ok a, s') => f a s'
  | (Raise e, s') => (Raise e, s')
  end.

Definition raise {A} (e : exn) : M A := fun s => (Raise e, s).

Definition lift {A} (r : result A) : M A := fun s => (r, s).

(** [try: body  except ... as e: handler e] *)
Definition try_except {A} (body : M A) (handler : exn -> M A) : M A := fun s =>
  match body s with
  | (Ok a, s') => (Ok a, s')
  | (Raise e, s') => handler e s'
  end.

(** [DATA_FILE.exists()] *)
Definition file_exists : M bool := fun s =>
  (Ok (match s with Some _ => true | None => false end), s).

(** Text mode reads with universal newlines: ["\r\n"] and ["\r"] arrive
    as ["\n"]. *)
Fixpoint universal_newlines (s : string) : string :=
  match s with
  | EmptyString => EmptyString
  | String c rest =>
      if Ascii.eqb c "013" then
        String "010"
          match rest with
          | String c' rest' =>
              if Ascii.eqb c' "010" then universal_newlines rest'
              else universal_newlines rest
          | EmptyString => EmptyString
          end
      else String c (universal_newlines rest)
  end.

(** The text [f.read()] returns for a file of these bytes opened with
    [encoding='utf-8']. *)
Definition decode_text (bytes : string) : result string :=
  if utf8_valid bytes then Ok (universal_newlines bytes)
  else Raise (UnicodeDecodeError "'utf-8' codec can't decode byte").

(** [with open(DATA_FILE, 'r', encoding='utf-8') as f: f.read()] *)
Definition open_read : M string := fun s =>
  match s with
  | None => (Raise (FileNotFoundError "[Errno 2] No such file or directory"), s)
  | Some bytes => (decode_text bytes, s)
  end.


(** ** A reference JSON codec

    [Json.loads] and [Json.dump] follow Python's [json] module: the decoder
    of [json.loads] (strict strings, [NaN] and [Infinity] accepted, a
    repeated key keeps its first position and its last value) and the
    printer of [json.dump(..., indent=2)].  A literal with a fraction or an
    exponent is read as a finite float and keeps its text.
    [Json.dump_partial] is the text that has reached the file when
    [json.dump] meets a string it cannot encode: the chunks of output
    before the one with that string.  The handlers do not depend on this
    codec; it serves to run them on concrete files. *)

Module Json.

Definition quote : ascii := "034".
Definition backslash : ascii := "092".
Definition newline : string := String "010" "".

(** *** Printing *)

Definition hex_digit (n : N) : ascii :=
  if (n <? 10)%N then ascii_of_N (48 + n) else ascii_of_N (87 + n).

Definition hex4 (n : N) : string :=
  String (hex_digit ((n / 4096) mod 16))
    (String (hex_digit ((n / 256) mod 16))
       (String (hex_digit ((n / 16) mod 16))
          (String (hex_digit (n mod 16)) ""))).

Definition escape_u (cp : N) : string := String backslash ("u" +:+ hex4 cp).

(** The code point of one character, given by its bytes. *)
Definition code_point (ch : string) : N :=
  match ch with
  | String b0 "" => byte_val b0
  | String b0 (String b1 "") => (byte_val b0 - 192) * 64 + (byte_val b1 - 128)
  | String b0 (String b1 (String b2 "")) =>
      (byte_val b0 - 224) * 4096 + (byte_val b1 - 128) * 64 + (byte_val b2 - 128)
  | String b0 (String b1 (String b2 (String b3 _))) =>
      (byte_val b0 - 240) * 262144 + (byte_val b1 - 128) * 4096
      + (byte_val b2 - 128) * 64 + (byte_val b3 - 128)
  | EmptyString => 0
  end%N.

Definition escape_char (ensure_ascii : bool) (ch : string) : string :=
  let cp := code_point ch in
  if (cp =? 34)%N then String backslash (String quote "")
  else if (cp =? 92)%N then String backslash (String backslash "")
  else if (cp =? 10)%N then String backslash "n"
  else if (cp =? 13)%N then String backslash "r"
  else if (cp =? 9)%N then String backslash "t"
  else if (cp =? 8)%N then String backslash "b"
  else if (cp =? 12)%N then String backslash "f"
  else if (cp <? 32)%N then escape_u cp
  else if ensure_ascii && (126 <? cp)%N then
    if (cp <? 65536)%N then escape_u cp
    else escape_u (55296 + (cp - 65536) / 1024)
         +:+ escape_u (56320 + (cp - 65536) mod 1024)
  else ch.

Definition dump_str (ensure_ascii : bool) (s : string) : string :=
  String quote
    (String.concat "" (escape_char ensure_ascii <$> utf8_chars s)
     +:+ String quote "").

Definition indentation (level : nat) : string :=
  String.concat "" (replicate (2 * level) " ").

(** The text of [v] at nesting depth [level], with [indent=2]. *)
Fixpoint dump_value (ensure_ascii : bool) (level : nat) (v : JSON) : string :=
  match v with
  | JNull => "null"
  | JBool true => "true"
  | JBool false => "false"
  | JInt z => pretty z
  | JFloat (Finite repr) => repr
  | JFloat NaN => "NaN"
  | JFloat Infinity => "Infinity"
  | JFloat NegInfinity => "-Infinity"
  | JStr s => dump_str ensure_ascii s
  | JList [] => "[]"
  | JList items =>
      "[" +:+ newline +:+ indentation (S level)
      +:+ (fix dump_items (items : list JSON) : string :=
             match items with
             | [] => ""
             | x :: rest =>
                 dump_value ensure_ascii (S level) x
                 +:+ match rest with
                     | [] => ""
                     | _ => "," +:+ newline +:+ indentation (S level)
                            +:+ dump_items rest
                     end
             end) items
      +:+ newline +:+ indentation level +:+ "]"
  | JDict [] => "{}"
  | JDict kvs =>
      "{" +:+ newline +:+ indentation (S level)
      +:+ (fix dump_members (kvs : dict) : string :=
             match kvs with
             | [] => ""
             | (k, x) :: rest =>
                 dump_str ensure_ascii k +:+ ": "
                 +:+ dump_value ensure_ascii (S level) x
                 +:+ match rest with
                     | [] => ""
                     | _ => "," +:+ newline +:+ indentation (S level)
                            +:+ dump_members rest
                     end
             end) kvs
      +:+ newline +:+ indentation level +:+ "}"
  end.

Definition dump (ensure_ascii : bool) (obj : JSON) : string :=
  dump_value ensure_ascii 0 obj.

(** *** Parsing *)

Definition is_ws (c : ascii) : bool :=
  Ascii.eqb c " " || Ascii.eqb c "009" || Ascii.eqb c "010" || Ascii.eqb c "013".

Fixpoint skip_ws (s : string) : string :=
  match s with
  | String c rest => if is_ws c then skip_ws rest else s
  | EmptyString => s
  end.

Fixpoint strip_prefix (p s : string) : option string :=
  match p, s with
  | EmptyString, _ => Some s
  | String a p', String b s' => if Ascii.eqb a b then strip_prefix p' s' else None
  | _, _ => None
  end.

Definition is_digit (c : ascii) : bool := in_range 48 57 c.

Fixpoint span (p : ascii -> bool) (s : string) : string * string :=
  match s with
  | String c rest =>
      if p c then let '(a, b) := span p rest in (String c a, b) else ("", s)
  | EmptyString => ("", "")
  end.

Definition hex_val (c : ascii) : option N :=
  if in_range 48 57 c then Some (byte_val c - 48)%N
  else if in_range 97 102 c then Some (byte_val c - 87)%N
  else if in_range 65 70 c then Some (byte_val c - 55)%N
  else None.

Definition parse_hex4 (s : string) : option (N * string) :=
  match s with
  | String a (String b (String c (String d rest))) =>
      a ← hex_val a; b ← hex_val b; c ← hex_val c; d ← hex_val d;
      Some ((a * 4096 + b * 256 + c * 16 + d)%N, rest)
  | _ => None
  end.

Definition unescape (e : ascii) : option ascii :=
  if Ascii.eqb e quote then Some quote
  else if Ascii.eqb e backslash then Some backslash
  else if Ascii.eqb e "/" then Some "/"%char
  else if Ascii.eqb e "b" then Some "008"%char
  else if Ascii.eqb e "f" then Some "012"%char
  else if Ascii.eqb e "n" then Some "010"%char
  else if Ascii.eqb e "r" then Some "013"%char
  else if Ascii.eqb e "t" then Some "009"%char
  else None.

(** A [\uXXXX] escape whose digits were just read as [cp]: a high
    surrogate followed by a low one makes one code point. *)
Definition join_surrogates (cp : N) (rest : string) : N * string :=
  if ((55296 <=? cp) && (cp <=? 56319))%N then
    match strip_prefix (String backslash "u") rest ≫= parse_hex4 with
    | Some (lo, rest') =>
        if ((56320 <=? lo) && (lo <=? 57343))%N
        then ((65536 + (cp - 55296) * 1024 + (lo - 56320))%N, rest')
        else (cp, rest)
    | None => (cp, rest)
    end
  else (cp, rest).

(** The characters of a string literal after its opening quote. *)
Fixpoint parse_chars (fuel : nat) (s : string) : option (string * string) :=
  match fuel with
  | 0 => None
  | S fuel =>
      match s with
      | EmptyString => None
      | String c r =>
          if Ascii.eqb c quote then Some ("", r)
          else if Ascii.eqb c backslash then
            match r with
            | EmptyString => None
            | String e r' =>
                if Ascii.eqb e "u" then
                  '(cp, r'') ← parse_hex4 r';
                  let '(cp, r'') := join_surrogates cp r'' in
                  '(str, rest) ← parse_chars fuel r'';
                  Some (utf8_encode cp +:+ str, rest)
                else
                  ch ← unescape e;
                  '(str, rest) ← parse_chars fuel r';
                  Some (String ch str, rest)
            end
          else if (byte_val c <? 32)%N then None
          else '(str, rest) ← parse_chars fuel r; Some (String c str, rest)
      end
  end.

Definition parse_string (s : string) : option (string * string) :=
  parse_chars (S (String.length s)) s.

Definition digits_value (ds : string) : Z :=
  foldl (fun acc c => acc * 10 + Z.of_N (byte_val c - 48))%Z 0%Z
        (list_ascii_of_string ds).

(** A number: an optional minus sign, an integer part without leading
    zeros, an optional fraction and an optional exponent. *)
Definition parse_number (s : string) : option (JSON * string) :=
  let '(sign, s1) :=
    match s with
    | String c r => if Ascii.eqb c "-" then ("-", r) else ("", s)
    | EmptyString => ("", s)
    end in
  '(int_part, s2) ←
    match s1 with
    | String c r =>
        if Ascii.eqb c "0" then Some ("0", r)
        else if is_digit c then Some (span is_digit s1)
        else None
    | EmptyString => None
    end;
  let '(frac, s3) :=
    match s2 with
    | String c r =>
        if Ascii.eqb c "." then
          match span is_digit r with
          | (EmptyString, _) => ("", s2)
          | (ds, r') => ("." +:+ ds, r')
          end
        else ("", s2)
    | EmptyString => ("", s2)
    end in
  let '(expo, s4) :=
    match s3 with
    | String c r =>
        if Ascii.eqb c "e" || Ascii.eqb c "E" then
          let '(esign, r1) :=
            match r with
            | String c' r' =>
                if Ascii.eqb c' "+" || Ascii.eqb c' "-"
                then (String c' "", r') else ("", r)
            | EmptyString => ("", r)
            end in
          match span is_digit r1 with
          | (EmptyString, _) => ("", s3)
          | (ds, r') => (String c esign +:+ ds, r')
          end
        else ("", s3)
    | EmptyString => ("", s3)
    end in
  match frac, expo with
  | EmptyString, EmptyString =>
      let n := digits_value int_part in
      Some (JInt (if String.eqb sign "-" then - n else n)%Z, s4)
  | _, _ => Some (JFloat (Finite (sign +:+ int_part +:+ frac +:+ expo)), s4)
  end.

Definition parse_literal (s : string) : option (JSON * string) :=
  match strip_prefix "null" s with Some r => Some (JNull, r) | None =>
  match strip_prefix "true" s with Some r => Some (JBool true, r) | None =>
  match strip_prefix "false" s with Some r => Some (JBool false, r) | None =>
  match strip_prefix "NaN" s with Some r => Some (JFloat NaN, r) | None =>
  match strip_prefix "Infinity" s with Some r => Some (JFloat Infinity, r) | None =>
  match strip_prefix "-Infinity" s with Some r => Some (JFloat NegInfinity, r) | None =>
  parse_number s
  end end end end end end.

(** A value at the head of [s]; [parse_items] and [parse_members] read
    the rest of an array or object whose first element starts at [s]. *)
Fixpoint parse_value (fuel : nat) (s : string) : option (JSON * string) :=
  match fuel with
  | 0 => None
  | S fuel =>
      match s with
      | EmptyString => None
      | String c r =>
          if Ascii.eqb c "{" then
            match skip_ws r with
            | String c' r' =>
                if Ascii.eqb c' "}" then Some (JDict [], r')
                else parse_members fuel [] (String c' r')
            | EmptyString => None
            end
          else if Ascii.eqb c "[" then
            match skip_ws r with
            | String c' r' =>
                if Ascii.eqb c' "]" then Some (JList [], r')
                else parse_items fuel [] (String c' r')
            | EmptyString => None
            end
          else if Ascii.eqb c quote then
            '(str, r') ← parse_string r; Some (JStr str, r')
          else parse_literal s
      end
  end
with parse_items (fuel : nat) (acc : list JSON) (s : string)
  : option (JSON * string) :=
  match fuel with
  | 0 => None
  | S fuel =>
      '(v, r) ← parse_value fuel s;
      match skip_ws r with
      | String c r' =>
          if Ascii.eqb c "," then parse_items fuel (acc ++ [v]) (skip_ws r')
          else if Ascii.eqb c "]" then Some (JList (acc ++ [v]), r')
          else None
      | EmptyString => None
      end
  end
with parse_members (fuel : nat) (acc : dict) (s : string)
  : option (JSON * string) :=
  match fuel with
  | 0 => None
  | S fuel =>
      match s with
      | EmptyString => None
      | String c r =>
          if Ascii.eqb c quote then
            '(k, r1) ← parse_string r;
            match skip_ws r1 with
            | String c1 r2 =>
                if Ascii.eqb c1 ":" then
                  '(v, r3) ← parse_value fuel (skip_ws r2);
                  match skip_ws r3 with
                  | String c3 r4 =>
                      if Ascii.eqb c3 "," then
                        parse_members fuel (dict_set k v acc) (skip_ws r4)
                      else if Ascii.eqb c3 "}" then
                        Some (JDict (dict_set k v acc), r4)
                      else None
                  | EmptyString => None
                  end
                else None
            | EmptyString => None
            end
          else None
      end
  end.

Definition loads (s : string) : result JSON :=
  match parse_value (2 * String.length s + 2) (skip_ws s) with
  | Some (v, r) =>
      match skip_ws r with
      | EmptyString => Ok v
      | _ => Raise (JSONDecodeError "Extra data")
      end
  | None => Raise (JSONDecodeError "Expecting value")
  end.

(** *** A write that fails

    [json.dump] writes the text chunk by chunk, as the encoder's
    [iterencode] yields it: the key and the value of a member of an object
    are chunks of their own, and an element of a list that is not itself a
    list or an object comes in one chunk with the separator before it.
    The chunk whose encoding fails is not written, nor is anything after
    it. *)

Fixpoint chunks (level : nat) (v : JSON) : list string :=
  match v with
  | JList [] => ["[]"]
  | JList items =>
      (fix list_chunks (buf : string) (items : list JSON) : list string :=
         match items with
         | [] => []
         | x :: rest =>
             match x with
             | JList _ | JDict _ => buf :: chunks (S level) x
             | _ => [buf +:+ dump_value false (S level) x]
             end
             ++ list_chunks ("," +:+ newline +:+ indentation (S level)) rest
         end) ("[" +:+ newline +:+ indentation (S level)) items
      ++ [newline +:+ indentation level; "]"]
  | JDict [] => ["{}"]
  | JDict kvs =>
      "{" :: (newline +:+ indentation (S level))
      :: (fix dict_chunks (first : bool) (kvs : dict) : list string :=
            match kvs with
            | [] => []
            | (k, x) :: rest =>
                (if first then []
                 else ["," +:+ newline +:+ indentation (S level)])
                ++ [dump_str false k; ": "]
                ++ chunks (S level) x
                ++ dict_chunks false rest
            end) true kvs
      ++ [newline +:+ indentation level; "}"]
  | _ => [dump_value false level v]
  end.

(** The chunks that reach the file: those before the first one that does
    not encode. *)
Fixpoint encoded_prefix (chunks : list string) : string :=
  match chunks with
  | [] => ""
  | chunk :: rest =>
      if utf8_valid chunk then chunk +:+ encoded_prefix rest else ""
  end.

Definition dump_partial (obj : JSON) : string :=
  encoded_prefix (chunks 0 obj).

End Json.

(** ** Collections of records *)

(** The document [{"meetings": [m1, ...]}] of a collection of records. *)
Definition document (ms : list dict) : JSON :=
  JDict [("meetings", JList (JDict <$> ms))].

(** [m.get('id') == meeting_id] for a record [m]. *)
Definition has_id (meeting_id : string) (m : dict) : bool :=
  py_eq_str (default JNull (dict_get "id" m)) meeting_id.

(** The entry a field contributes to the dumped update: the body's value
    when the body has the key. *)
Definition field_entry (name : string) (o : option JSON) : dict :=
  match o with Some v => [(name, v)] | None => [] end.

(** ** Sample data

    The records, bodies and files on which the handlers are run below. *)

Module Sample.

(** The record of the update example: [{id: "x", title: "A", agenda: "B"}]. *)
Definition meeting_x : dict :=
  [("id", JStr "x"); ("title", JStr "A"); ("agenda", JStr "B")].

Definition meeting_y : dict :=
  [("id", JStr "y"); ("title", JStr "Review"); ("participants", JList [JStr "ann"])].

(** A second record with the id of [meeting_x], as a bulk import can
    produce. *)
Definition meeting_x2 : dict :=
  [("id", JStr "x"); ("title", JStr "Copy"); ("room", JInt 4)].

Definition meeting_c : dict := [("id", JStr "c"); ("title", JStr "C")].

Definition file_of (ms : list dict) : fs := Some (Json.dump false (document ms)).

Definition uuid : string := "0b0e7a52-6f0c-4c55-9d0e-3a1f6f3b2c11".

(** A create body with every kind of field, an unknown key and an id. *)
Definition create_body : dict :=
  [("title", JStr "Standup"); ("id", JStr "mine"); ("date", JStr "2024-05-01");
   ("participants", JList [JStr "ann"; JStr "bob"]); ("notes", JNull);
   ("room", JInt 4)].

(** The record [create_meeting] makes of [create_body]. *)
Definition created : dict :=
  [("title", JStr "Standup"); ("date", JStr "2024-05-01"); ("time", JNull);
   ("participants", JList [JStr "ann"; JStr "bob"]); ("agenda", JNull);
   ("notes", JNull); ("id", JStr uuid); ("room", JInt 4)].

(** [create_body] as the validated model the handler receives. *)
Definition create_model : MeetingCreate.t :=
  {| MeetingCreate.title := "Standup";
     MeetingCreate.date := Some "2024-05-01";
     MeetingCreate.time := None;
     MeetingCreate.participants := Some ["ann"; "bob"];
     MeetingCreate.agenda := None;
     MeetingCreate.notes := None;
     MeetingCreate.extra := [("id", JStr "mine"); ("room", JInt 4)] |}.

(** The update body of the example: [{title: "C"}]. *)
Definition update_body : dict := [("title", JStr "C")].

Definition update_model : MeetingUpdate.t :=
  {| MeetingUpdate.title := Some (Some "C");
     MeetingUpdate.date := None;
     MeetingUpdate.time := None;
     MeetingUpdate.participants := None;
     MeetingUpdate.agenda := None;
     MeetingUpdate.notes := None;
     MeetingUpdate.extra := [] |}.

(** An update body that carries an ["id"] key and sets a field to [null]. *)
Definition rename_body : dict := [("id", JStr "y"); ("notes", JNull)].

Definition rename_model : MeetingUpdate.t :=
  {| MeetingUpdate.title := None;
     MeetingUpdate.date := None;
     MeetingUpdate.time := None;
     MeetingUpdate.participants := None;
     MeetingUpdate.agenda := None;
     MeetingUpdate.notes := Some None;
     MeetingUpdate.extra := [("id", JStr "y")] |}.

(** A second generated identifier. *)
Definition uuid_2 : string := "7c1d9e05-2b6a-4f0e-8a47-5d3c9b1e6f20".

(** Records a bulk import can bring in: one without "id", one whose "id"
    is a number. *)
Definition meeting_no_id : dict := [("title", JStr "Draft")].

Definition meeting_number_id : dict := [("id", JInt 7); ("title", JStr "Seven")].



(** [{"meetings": ms}] as the top-level object of a document. *)
Definition top_of (ms : list dict) : dict := [("meetings", JList (JDict <$> ms))].

(** A file that is not UTF-8 text: the single byte 0xFF. *)
Definition binary_garbage : string := String "255" "".

(** The string of one lone surrogate, U+D800: what [json.loads] makes of
    the escape [\ud800].  It has no UTF-8 encoding. *)
Definition lone_surrogate : string := utf8_encode 55296.

(** A record with an unknown field that holds such a string. *)
Definition meeting_s : dict :=
  [("id", JStr "s"); ("title", JStr "S"); ("tag", JStr lone_surrogate)].






End Sample.

(** Closes [k ∉ [k1; ...; kn]] for literal keys. *)
Ltac not_in_list :=
  rewrite ?not_elem_of_cons; split_and?; try done; apply not_elem_of_nil.

(** ** The handlers of main.py *)

Section Handlers.

(** [json.loads(text)], the text [json.dump(obj, f, indent=2,
    ensure_ascii=...)] writes, and the part of that text which has reached
    the file when the encoding of a string fails. *)
Variable json_loads : string -> result JSON.
Variable json_dump : forall (ensure_ascii : bool) (obj : JSON), string.
Variable json_dump_partial : JSON -> string.

(** [with open(DATA_FILE, 'w', encoding='utf-8') as f:
       json.dump(obj, f, indent=2, ensure_ascii=...)]
    Opening truncates the file.  With [ensure_ascii] the text is ASCII and
    always encodes; without it a lone surrogate in [obj] is written as it
    is, its encoding fails, and the file keeps what was written before. *)
Definition json_dump_to_file (ensure_ascii : bool) (obj : JSON) : M unit :=
  fun _ =>
    if ensure_ascii || encodable obj
    then (Ok (), Some (json_dump ensure_ascii obj))
    else (Raise (UnicodeEncodeError surrogates_not_allowed),
          Some (json_dump_partial obj)).

Definition ensure_data_file : M unit :=
  present ← file_exists;
  if negb present then json_dump_to_file true empty_document
  else mret ().

Definition read_data : M JSON :=
  ensure_data_file;;
  try_except
    (content ← open_read;
     if negb (str_bool (str_strip content)) then mret empty_document
     else lift (json_loads content))
    (fun e =>
       match e with
       | JSONDecodeError _ => mret empty_document
       | _ => raise (HTTPException 500 ("Failed to read data: " +:+ exn_str e))
       end).

Definition write_data (data : JSON) : M bool :=
  try_except
    (json_dump_to_file false data;; mret true)
    (fun e => raise (HTTPException 500 ("Failed to write data: " +:+ exn_str e))).

(** [except HTTPException: raise]
    [except Exception as e: raise HTTPException(500, f"{what}: {str(e)}")] *)
Definition reraise {A} (what : string) (e : exn) : M A :=
  match e with
  | HTTPException _ _ => raise e
  | _ => raise (HTTPException 500 (what +:+ ": " +:+ exn_str e))
  end.

Definition not_found {A} (meeting_id : string) : M A :=
  raise (HTTPException 404 ("Meeting with ID '" +:+ meeting_id +:+ "' not found")).

Definition get_all_meetings : M JSON :=
  data ← read_data;
  mret data.

(** [uuid4] is the value [str(uuid.uuid4())] draws in this call. *)
Definition create_meeting (uuid4 : string) (meeting : MeetingCreate.t)
  : M SuccessResponse.t :=
  try_except
    (data ← read_data;
     let meeting_id := uuid4 in
     let new_meeting :=
       dict_set "id" (JStr meeting_id) (MeetingCreate.model_dump meeting) in
     meetings ← lift (py_getitem data "meetings");
     meetings ← lift (py_append meetings (JDict new_meeting));
     data ← lift (py_setitem data "meetings" meetings);
     write_data data;;
     mret {| SuccessResponse.success := true;
             SuccessResponse.message := "Meeting created successfully";
             SuccessResponse.data := Some (JDict new_meeting) |})
    (reraise "Failed to create meeting").

(** [for meeting in items: if meeting.get('id') == meeting_id: return meeting] *)
Fixpoint find_meeting (meeting_id : string) (items : list JSON)
  : result (option JSON) :=
  match items with
  | [] => Ok None
  | meeting :: rest =>
      v ← py_get meeting "id";
      if py_eq_str v meeting_id then Ok (Some meeting)
      else find_meeting meeting_id rest
  end.

Definition get_meeting_by_id (meeting_id : string) : M JSON :=
  data ← read_data;
  meetings ← lift (py_getitem data "meetings");
  items ← lift (py_iter meetings);
  found ← lift (find_meeting meeting_id items);
  match found with
  | Some meeting => mret meeting
  | None => not_found meeting_id
  end.

(** The loop of [update_meeting] from index [i] on; [None] when it ends
    without a match. *)
Fixpoint update_loop (data : JSON) (meeting_id : string)
    (meeting_update : MeetingUpdate.t) (i : nat) (items : list JSON)
  : M (option SuccessResponse.t) :=
  match items with
  | [] => mret None
  | meeting :: rest =>
      v ← lift (py_get meeting "id");
      if py_eq_str v meeting_id then
        let update_data := MeetingUpdate.model_dump_exclude_unset meeting_update in
        meetings ← lift (py_getitem data "meetings");
        target ← lift (py_getitem_int meetings i);
        target ← lift (py_update target update_data);
        meetings ← lift (py_setitem_int meetings i target);
        data ← lift (py_setitem data "meetings" meetings);
        write_data data;;
        mret (Some {| SuccessResponse.success := true;
                      SuccessResponse.message := "Meeting updated successfully";
                      SuccessResponse.data := Some target |})
      else update_loop data meeting_id meeting_update (S i) rest
  end.

Definition update_meeting (meeting_id : string) (meeting_update : MeetingUpdate.t)
  : M SuccessResponse.t :=
  try_except
    (data ← read_data;
     meetings ← lift (py_getitem data "meetings");
     items ← lift (py_iter meetings);
     returned ← update_loop data meeting_id meeting_update 0 items;
     match returned with
     | Some response => mret response
     | None => not_found meeting_id
     end)
    (reraise "Failed to update meeting").

(** [[m for m in items if m.get('id') != meeting_id]] *)
Fixpoint comprehension (meeting_id : string) (items : list JSON)
  : result (list JSON) :=
  match items with
  | [] => Ok []
  | m :: rest =>
      v ← py_get m "id";
      kept ← comprehension meeting_id rest;
      Ok (if negb (py_eq_str v meeting_id) then m :: kept else kept)
  end.

Definition delete_meeting (meeting_id : string) : M SuccessResponse.t :=
  try_except
    (data ← read_data;
     meetings ← lift (py_getitem data "meetings");
     initial_length ← lift (py_len meetings);
     items ← lift (py_iter meetings);
     kept ← lift (comprehension meeting_id items);
     data ← lift (py_setitem data "meetings" (JList kept));
     if Nat.eqb (length kept) initial_length then not_found meeting_id
     else
       write_data data;;
       mret {| SuccessResponse.success := true;
               SuccessResponse.message := "Meeting deleted successfully";
               SuccessResponse.data := None |})
    (reraise "Failed to delete meeting").

Definition save_all_meetings (data : MeetingsData.t) : M SuccessResponse.t :=
  try_except
    (if negb (MeetingsData.hasattr_meetings data) then
       raise (HTTPException 400 "Invalid JSON data: 'meetings' key required")
     else
       let data_dict := MeetingsData.model_dump data in
       write_data data_dict;;
       mret {| SuccessResponse.success := true;
               SuccessResponse.message := "All meetings data saved successfully";
               SuccessResponse.data := None |})
    (reraise "Failed to save data").

(** ** The routes

    What FastAPI does around a handler: the body is validated against the
    parameter's model (422 on failure, the handler is not called), the
    returned value goes through the route's [response_model], an
    [HTTPException] becomes a response with its status, and any other
    exception becomes a 500. *)

Inductive Response : Type :=
| JSONResponse (status_code : Z) (content : JSON)
| RequestValidationError      (* 422; the content lists the rejected fields *)
| InternalServerError.        (* 500 *)

Definition status_of (r : Response) : Z :=
  match r with
  | JSONResponse c _ => c
  | RequestValidationError => 422
  | InternalServerError => 500
  end.

(** [JSONResponse(content)]: the content is rendered with
    [allow_nan=False] and encoded as UTF-8; when that fails the request
    ends in a 500. *)
Definition render (content : JSON) : Response :=
  if finite_floats content && encodable content
  then JSONResponse 200 content
  else InternalServerError.

Definition respond {A} (response_model : A -> option JSON) (handler : M A)
  : fs -> Response * fs := fun s =>
  match handler s with
  | (Ok a, s') =>
      (match response_model a with
       | Some content => render content
       | None => InternalServerError
       end, s')
  | (Raise (HTTPException c d), s') => (JSONResponse c (JDict [("detail", JStr d)]), s')
  | (Raise _, s') => (InternalServerError, s')
  end.

Definition with_body {A} (validate : JSON -> option A) (body : JSON)
    (route : A -> fs -> Response * fs) : fs -> Response * fs := fun s =>
  match validate body with
  | Some a => route a s
  | None => (RequestValidationError, s)
  end.

Definition success_model (r : SuccessResponse.t) : option JSON :=
  Some (SuccessResponse.to_json r).

(** [@app.get("/api/meetings", response_model=MeetingsData)] *)
Definition GET_meetings : fs -> Response * fs :=
  respond (fun data => MeetingsData.to_json <$> MeetingsData.validate data)
          get_all_meetings.


(** [@app.get("/api/meetings/{meeting_id}")] *)
Definition GET_meeting (meeting_id : string) : fs -> Response * fs :=
  respond Some (get_meeting_by_id meeting_id).


(** [@app.delete("/api/meetings/{meeting_id}", response_model=SuccessResponse)] *)
Definition DELETE_meeting (meeting_id : string) : fs -> Response * fs :=
  respond success_model (delete_meeting meeting_id).

(** [@app.post("/api/meetings/bulk", response_model=SuccessResponse)] *)
Definition POST_meetings_bulk (body : JSON) : fs -> Response * fs :=
  with_body MeetingsData.validate body
    (fun data => respond success_model (save_all_meetings data)).

(** The file in state [s] reads as the object [top], whose ["meetings"]
    entry is the collection [ms] of records. *)
Definition holds (s : fs) (top : dict) (ms : list dict) : Prop :=
  (read_data s).1 = Ok (JDict top)
  /\ dict_get "meetings" top = Some (JList (JDict <$> ms)).

(** Writing [d] succeeds, and reading the file again gives [d] back. *)
Definition reads_back (d : JSON) : Prop :=
  encodable d = true
  /\ read_data (Some (json_dump false d)) = (Ok d, Some (json_dump false d)).

(** What [write_data(data)] followed by [return value] comes to inside a
    handler: the value and the new file, or the 500 of a failed write and
    what the write left of the file. *)
Definition written {A} (data : JSON) (value : A) : result A * fs :=
  if encodable data then (Ok value, Some (json_dump false data))
  else (Raise (HTTPException 500
                 ("Failed to write data: " +:+ surrogates_not_allowed)),
        Some (json_dump_partial data)).

(** * Properties *)

Ltac run :=
  cbv [mbind M_bind result_bind mret M_ret result_ret lift raise try_except
       not_found reraise].

(** As [run], but leaves the [except] clauses of the handlers folded. *)
Ltac run_body :=
  cbv [mbind M_bind result_bind mret M_ret result_ret lift raise try_except
       not_found].



(** ** Dictionaries *)

Lemma dict_get_set_eq (k : string) (v : JSON) (d : dict) :
  dict_get k (dict_set k v d) = Some v.
Proof.
  induction d as [|[k' v'] d IH]; simpl.
  - by rewrite String.eqb_refl.
  - destruct (String.eqb k' k) eqn:E; simpl; rewrite E; done.
Qed.

Lemma dict_get_set_ne (k k' : string) (v : JSON) (d : dict) :
  k <> k' -> dict_get k' (dict_set k v d) = dict_get k' d.
Proof.
  intros Hne. induction d as [|[k0 v0] d IH]; simpl.
  - apply String.eqb_neq in Hne. by rewrite Hne.
  - destruct (String.eqb k0 k) eqn:E; simpl.
    + apply String.eqb_eq in E. subst k0.
      apply String.eqb_neq in Hne. by rewrite Hne.
    + by rewrite IH.
Qed.

Lemma dict_set_set (k : string) (v v' : JSON) (d : dict) :
  dict_set k v' (dict_set k v d) = dict_set k v' d.
Proof.
  induction d as [|[k0 v0] d IH]; simpl.
  - by rewrite String.eqb_refl.
  - destruct (String.eqb k0 k) eqn:E; simpl; rewrite E; [done|by rewrite IH].
Qed.

Lemma dict_get_app (k : string) (d1 d2 : dict) :
  dict_get k (d1 ++ d2)
  = match dict_get k d1 with Some v => Some v | None => dict_get k d2 end.
Proof.
  induction d1 as [|[k0 v0] d1 IH]; simpl; [done|].
  by destruct (String.eqb k0 k).
Qed.

Lemma dict_get_None (k : string) (d : dict) :
  dict_get k d = None <-> k ∉ dict_keys d.
Proof.
  unfold dict_keys. induction d as [|[k0 v0] d IH]; simpl.
  - split; [intros _; apply not_elem_of_nil|done].
  - rewrite not_elem_of_cons. destruct (String.eqb k0 k) eqn:E.
    + apply String.eqb_eq in E. subst. split; [done|]. by intros [? _].
    + apply String.eqb_neq in E. rewrite IH.
      split; [intros ?; split; [congruence|done]|by intros [_ ?]].
Qed.

Lemma dict_get_Some_elem (k : string) (v : JSON) (d : dict) :
  dict_get k d = Some v -> (k, v) ∈ d.
Proof.
  induction d as [|[k0 v0] d IH]; simpl; [done|].
  destruct (String.eqb k0 k) eqn:E.
  - apply String.eqb_eq in E. intros [= ->]. subst. apply list_elem_of_here.
  - intros H. apply list_elem_of_further. auto.
Qed.

Lemma dict_set_app_l (k : string) (v : JSON) (d1 d2 : dict) :
  k ∈ dict_keys d1 -> dict_set k v (d1 ++ d2) = dict_set k v d1 ++ d2.
Proof.
  unfold dict_keys. induction d1 as [|[k0 v0] d1 IH]; simpl.
  - by intros ?%elem_of_nil.
  - destruct (String.eqb k0 k) eqn:E; [done|].
    apply String.eqb_neq in E. rewrite elem_of_cons.
    intros [?|?]; [congruence|]. by rewrite IH.
Qed.

Lemma dict_set_app_r (k : string) (v : JSON) (d1 d2 : dict) :
  k ∉ dict_keys d1 -> dict_set k v (d1 ++ d2) = d1 ++ dict_set k v d2.
Proof.
  unfold dict_keys. induction d1 as [|[k0 v0] d1 IH]; simpl; [done|].
  rewrite not_elem_of_cons. intros [Hne ?].
  apply not_eq_sym, String.eqb_neq in Hne. rewrite Hne. by rewrite IH.
Qed.

(** After [d.update(upd)] a key of [upd] has the value of its last binding
    in [upd]; any other key has the value it had in [d]. *)
Lemma dict_get_update (k : string) (d upd : dict) :
  dict_get k (dict_update d upd)
  = match dict_get k (reverse upd) with
    | Some v => Some v
    | None => dict_get k d
    end.
Proof.
  unfold dict_update. revert d.
  induction upd as [|[k0 v0] upd IH]; intros d; simpl; [done|].
  rewrite IH, reverse_cons, dict_get_app. simpl.
  destruct (dict_get k (reverse upd)); [done|].
  destruct (String.eqb k0 k) eqn:E.
  - apply String.eqb_eq in E. subst. apply dict_get_set_eq.
  - apply String.eqb_neq in E. by apply dict_get_set_ne.
Qed.

Lemma dict_get_reverse (k : string) (d : dict) :
  NoDup (dict_keys d) -> dict_get k (reverse d) = dict_get k d.
Proof.
  unfold dict_keys. induction d as [|[k0 v0] d IH]; simpl; [done|].
  rewrite NoDup_cons. intros [Hnotin Hnd].
  rewrite reverse_cons, dict_get_app, IH by done. simpl.
  destruct (String.eqb k0 k) eqn:E.
  - apply String.eqb_eq in E. subst.
    apply dict_get_None in Hnotin. by rewrite Hnotin.
  - by destruct (dict_get k d).
Qed.

(** A key that [upd] does not bind is left untouched by the update. *)
Lemma dict_get_update_frame (k : string) (d upd : dict) :
  dict_get k upd = None -> dict_get k (dict_update d upd) = dict_get k d.
Proof.
  intros Hk. rewrite dict_get_update.
  assert (dict_get k (reverse upd) = None) as ->; [|done].
  apply dict_get_None. apply dict_get_None in Hk.
  unfold dict_keys in *. by rewrite fmap_reverse, elem_of_reverse.
Qed.

(** A key that [upd] binds (once) gets the value [upd] gives it. *)
Lemma dict_get_update_merged (k : string) (v : JSON) (d upd : dict) :
  NoDup (dict_keys upd) -> dict_get k upd = Some v ->
  dict_get k (dict_update d upd) = Some v.
Proof.
  intros Hnd Hk. by rewrite dict_get_update, dict_get_reverse, Hk.
Qed.

(** ** Reading and writing the file *)

Lemma ensure_data_file_Some (content : string) :
  ensure_data_file (Some content) = (Ok (), Some content).
Proof. done. Qed.

Lemma ensure_data_file_None :
  ensure_data_file None = (Ok (), Some (json_dump true empty_document)).
Proof. done. Qed.

(** What [read_data] returns for a file that exists. *)
Lemma read_data_Some (content : string) :
  read_data (Some content)
  = (match decode_text content with
     | Ok text =>
         if str_bool (str_strip text) then
           match json_loads text with
           | Ok v => Ok v
           | Raise (JSONDecodeError _) => Ok empty_document
           | Raise e =>
               Raise (HTTPException 500 ("Failed to read data: " +:+ exn_str e))
           end
         else Ok empty_document
     | Raise e => Raise (HTTPException 500 ("Failed to read data: " +:+ exn_str e))
     end, Some content).
Proof.
  unfold read_data, ensure_data_file, file_exists, open_read. run. simpl.
  unfold decode_text. destruct (utf8_valid content); [|done].
  destruct (str_bool _); simpl; [|done].
  destruct (json_loads _) as [v|[]]; done.
Qed.

(** A missing file is first created with the empty document. *)
Lemma read_data_None :
  read_data None = read_data (Some (json_dump true empty_document)).
Proof. done. Qed.

(** Reading leaves on disk what [ensure_data_file] leaves there. *)
Lemma read_data_state (s : fs) : (read_data s).2 = (ensure_data_file s).2.
Proof.
  destruct s as [content|]; [|rewrite read_data_None];
    by rewrite read_data_Some.
Qed.

(** Reading twice reads the same. *)
Lemma read_data_again (s : fs) : read_data (read_data s).2 = read_data s.
Proof.
  destruct s as [content|]; [|rewrite read_data_None];
    rewrite read_data_Some; cbn [snd]; by rewrite read_data_Some.
Qed.

Lemma read_data_holds (s : fs) (top : dict) (ms : list dict) :
  holds s top ms -> read_data s = (Ok (JDict top), (ensure_data_file s).2).
Proof.
  intros [Hr _]. rewrite <- read_data_state, <- Hr. by destruct (read_data s).
Qed.

Lemma ensure_data_file_exists (s : fs) :
  is_Some s -> (ensure_data_file s).2 = s.
Proof. by intros [content ->]. Qed.

Lemma write_data_eq (data : JSON) (s : fs) :
  write_data data s = written data true.
Proof.
  unfold write_data, written, json_dump_to_file. run. simpl.
  by destruct (encodable data).
Qed.

Lemma written_ok {A} (data : JSON) (value : A) :
  encodable data = true ->
  written data value = (Ok value, Some (json_dump false data)).
Proof. unfold written. by intros ->. Qed.

Lemma written_failed {A} (data : JSON) (value : A) :
  encodable data = false ->
  written data value
  = (Raise (HTTPException 500
              ("Failed to write data: " +:+ surrogates_not_allowed)),
     Some (json_dump_partial data)).
Proof. unfold written. by intros ->. Qed.

(** What a handler makes of [write_data(data)] followed by [return value]
    under its [except] clauses. *)
Lemma write_then_return {A} (data : JSON) (value : A) (what : string) (s : fs) :
  try_except (write_data data;; mret value) (reraise what) s = written data value.
Proof.
  run_body. rewrite write_data_eq. unfold written. by destruct (encodable data).
Qed.

(** Closes a goal that ends in [write_data(data)] and [return value]. *)
Ltac write_step :=
  rewrite write_data_eq; unfold written;
  by destruct (encodable _).

(** ** Values that can be written and sent *)

(** Induction on a JSON value, through its lists and objects. *)
Lemma JSON_induction (P : JSON -> Prop) :
  P JNull ->
  (forall b, P (JBool b)) ->
  (forall z, P (JInt z)) ->
  (forall x, P (JFloat x)) ->
  (forall s, P (JStr s)) ->
  (forall items, Forall P items -> P (JList items)) ->
  (forall kvs, Forall (fun kv => P kv.2) kvs -> P (JDict kvs)) ->
  forall v, P v.
Proof.
  intros Hnull Hbool Hint Hfloat Hstr Hlist Hdict.
  fix IH 1. intros [| b | z | x | s | items | kvs].
  - apply Hnull.
  - apply Hbool.
  - apply Hint.
  - apply Hfloat.
  - apply Hstr.
  - apply Hlist.
    exact ((fix go (l : list JSON) : Forall P l :=
              match l with
              | [] => Forall_nil_2 P
              | x :: l' => Forall_cons_2 P x l' (IH x) (go l')
              end) items).
  - apply Hdict.
    exact ((fix go (l : dict) : Forall (fun kv => P kv.2) l :=
              match l with
              | [] => Forall_nil_2 _
              | kv :: l' => Forall_cons_2 _ kv l' (IH kv.2) (go l')
              end) kvs).
Qed.

Lemma finite_floats_ser_json (v : JSON) : finite_floats (ser_json v) = true.
Proof.
  induction v as [| | | x | |items IH|kvs IH] using JSON_induction; try done.
  - simpl. by destruct x.
  - simpl. induction IH as [|y items Hy _ IH']; [done|].
    rewrite fmap_cons. simpl. by rewrite Hy, IH'.
  - simpl. induction IH as [|[k y] kvs Hy _ IH']; [done|].
    rewrite fmap_cons. simpl in *. by rewrite Hy, IH'.
Qed.

Lemma encodable_ser_json (v : JSON) : encodable (ser_json v) = encodable v.
Proof.
  induction v as [| | | x | |items IH|kvs IH] using JSON_induction; try done.
  - simpl. by destruct x.
  - simpl. induction IH as [|y items Hy _ IH']; [done|].
    rewrite fmap_cons. simpl. by rewrite Hy, IH'.
  - simpl. induction IH as [|[k y] kvs Hy _ IH']; [done|].
    rewrite fmap_cons. simpl in *. by rewrite Hy, IH'.
Qed.


Lemma encodable_records (ms : list dict) :
  encodable (JList (JDict <$> ms)) = forallb (fun m => encodable (JDict m)) ms.
Proof.
  simpl. induction ms as [|m ms IH]; [done|].
  rewrite fmap_cons. simpl. by rewrite IH.
Qed.

Lemma finite_floats_records (ms : list dict) :
  finite_floats (JList (JDict <$> ms))
  = forallb (fun m => finite_floats (JDict m)) ms.
Proof.
  simpl. induction ms as [|m ms IH]; [done|].
  rewrite fmap_cons. simpl. by rewrite IH.
Qed.


(** Assigning to a key that is there leaves all other entries, so the
    object can be written if the new value and the old object can, and
    the old object can if the old value and the new object can. *)
Lemma encodable_dict_set (k : string) (v v0 : JSON) (d : dict) :
  dict_get k d = Some v0 ->
  encodable (JDict (dict_set k v d)) && encodable v0
  = encodable (JDict d) && encodable v.
Proof.
  simpl. induction d as [|[k1 v1] d IH]; simpl; [done|].
  destruct (String.eqb k1 k) eqn:E.
  - intros [= ->]. simpl.
    destruct (utf8_valid k1), (encodable v), (encodable v0),
      (forallb _ d); done.
  - intros H. simpl. rewrite <- !andb_assoc. rewrite (IH H).
    by rewrite !andb_assoc.
Qed.

Lemma encodable_dict_set_1 (k : string) (v v0 : JSON) (d : dict) :
  dict_get k d = Some v0 ->
  encodable (JDict (dict_set k v d)) = true ->
  encodable v = true.
Proof.
  simpl. induction d as [|[k1 v1] d IH]; simpl; [done|].
  destruct (String.eqb k1 k) eqn:E.
  - intros _. simpl. by intros [[_ ?]%andb_prop _]%andb_prop.
  - intros H. simpl. intros [_ ?]%andb_prop. by apply IH.
Qed.

Lemma encodable_dict_set_2 (k : string) (v v0 : JSON) (d : dict) :
  dict_get k d = Some v0 ->
  encodable (JDict (dict_set k v d)) = true ->
  encodable v0 = true ->
  encodable (JDict d) = true.
Proof.
  intros Hk H Hv0. pose proof (encodable_dict_set k v v0 d Hk) as E.
  rewrite H, Hv0 in E. simpl in E. symmetry in E.
  by apply andb_prop in E as [? _].
Qed.



(** ** The loops on a collection of records *)


Lemma mapM_validate_str (items : list JSON) (l : list string) :
  mapM validate_str items = Some l -> JStr <$> l = items.
Proof.
  intros H%mapM_Some_1. induction H as [|x y items l Hx _ IH]; [done|].
  destruct x; try done. simpl in Hx. injection Hx as ->. by rewrite fmap_cons, IH.
Qed.

Lemma find_meeting_records (meeting_id : string) (ms : list dict) :
  find_meeting meeting_id (JDict <$> ms)
  = Ok ((fun im => JDict im.2) <$> list_find (fun m => has_id meeting_id m) ms).
Proof.
  induction ms as [|m ms IH]; [done|].
  rewrite fmap_cons. simpl. run. fold (has_id meeting_id m).
  destruct (has_id meeting_id m) eqn:E; simpl; [done|].
  rewrite IH. by destruct (list_find _ ms) as [[??]|].
Qed.

Lemma comprehension_records (meeting_id : string) (ms : list dict) :
  comprehension meeting_id (JDict <$> ms)
  = Ok (JDict <$> filter (fun m => ¬ has_id meeting_id m) ms).
Proof.
  induction ms as [|m ms IH]; [done|].
  rewrite fmap_cons. simpl. run. fold (has_id meeting_id m). rewrite IH.
  destruct (has_id meeting_id m) eqn:E; simpl.
  - rewrite filter_cons_False; [done|]. rewrite E. by intros H; apply H.
  - rewrite filter_cons_True; [done|]. rewrite E. intros [].
Qed.

(** Filtering removes nothing exactly when no record matches. *)
Lemma length_filter_eq (meeting_id : string) (ms : list dict) :
  length (filter (fun m => ¬ has_id meeting_id m) ms) = length ms
  <-> Forall (fun m => ¬ has_id meeting_id m) ms.
Proof.
  split.
  - intros Hlen. apply Forall_forall. intros m Hm Hid.
    pose proof (length_filter_lt (fun m => ¬ has_id meeting_id m) ms m Hm) as Hlt.
    assert (¬ ¬ has_id meeting_id m) as Hnn by (intros H; by apply H).
    specialize (Hlt Hnn). lia.
  - induction 1 as [|m ms Hm _ IH]; [done|].
    rewrite filter_cons_True by done. simpl. by rewrite IH.
Qed.

Lemma get_meeting_by_id_records (s : fs) (top : dict) (ms : list dict)
    (meeting_id : string) :
  holds s top ms ->
  get_meeting_by_id meeting_id s
  = (match list_find (fun m => has_id meeting_id m) ms with
     | Some (_, m) => Ok (JDict m)
     | None => Raise (HTTPException 404
                        ("Meeting with ID '" +:+ meeting_id +:+ "' not found"))
     end, (ensure_data_file s).2).
Proof.
  intros H. pose proof (read_data_holds _ _ _ H) as Hr. destruct H as [_ Hm].
  unfold get_meeting_by_id. run. rewrite Hr. simpl. rewrite Hm. simpl.
  rewrite find_meeting_records.
  by destruct (list_find _ ms) as [[??]|].
Qed.

Lemma lstrip_chars_whitespace (chars : list string) :
  forallb isspace chars = true -> lstrip_chars chars = [].
Proof.
  induction chars as [|ch chars IH]; simpl; [done|].
  destruct (isspace ch); simpl; [done|discriminate].
Qed.

Lemma str_strip_whitespace_only (text : string) :
  whitespace_only text = true -> str_strip text = "".
Proof.
  unfold whitespace_only, str_strip. intros H.
  by rewrite (lstrip_chars_whitespace _ H).
Qed.

(** ** Rendering *)

Lemma render_ok (content : JSON) :
  finite_floats content = true -> encodable content = true ->
  render content = JSONResponse 200 content.
Proof. unfold render. by intros -> ->. Qed.





(** The envelope of a handler is sent if its message and its data
    encode. *)
Lemma render_envelope (r : SuccessResponse.t) :
  utf8_valid (SuccessResponse.message r) = true ->
  from_option encodable true (SuccessResponse.data r) = true ->
  render (SuccessResponse.to_json r) = JSONResponse 200 (SuccessResponse.to_json r).
Proof.
  intros Hm Hd. apply render_ok.
  - unfold SuccessResponse.to_json. cbn [finite_floats forallb].
    destruct (SuccessResponse.data r) as [d|]; cbn [from_option];
      [by rewrite finite_floats_ser_json|done].
  - unfold SuccessResponse.to_json. cbn [encodable forallb]. rewrite Hm.
    destruct (SuccessResponse.data r) as [d|]; cbn [from_option] in *;
      [by rewrite encodable_ser_json, Hd|done].
Qed.

(** ** Claims *)

(** C6 (amended): when the bytes of the backing file decode as UTF-8 text
    and that text is empty, whitespace-only or rejected by the JSON decoder
    with a decode error, [read_data] returns [{"meetings": []}] without a
    fault and leaves the file as it is, and listing the meetings answers
    200 with [{"meetings": []}]. *)
Theorem read_data_tolerates_corrupt_text (content text : string) :
  decode_text content = Ok text ->
  (text = ""
   \/ whitespace_only text = true
   \/ exists msg, json_loads text = Raise (JSONDecodeError msg)) ->
  read_data (Some content) = (Ok empty_document, Some content)
  /\ GET_meetings (Some content) = (JSONResponse 200 empty_document, Some content).
Proof.
  intros Hdec Hbad.
  assert (read_data (Some content) = (Ok empty_document, Some content)) as Hr.
  { rewrite read_data_Some, Hdec.
    destruct Hbad as [->|[Hws|[msg Hmsg]]].
    - done.
    - by rewrite (str_strip_whitespace_only _ Hws).
    - rewrite Hmsg. by destruct (str_bool _). }
  split; [done|].
  unfold GET_meetings, respond, get_all_meetings. run. by rewrite Hr.
Qed.


(** C5: when no record of the collection has the given id, the delete
    handler raises the 404 fault and performs no write: the file is left as
    reading it leaves it (untouched if it existed), and it still holds the
    same collection. *)
Theorem delete_absent_not_found (s : fs) (top : dict) (ms : list dict)
    (meeting_id : string) :
  holds s top ms ->
  Forall (fun m => ¬ has_id meeting_id m) ms ->
  delete_meeting meeting_id s
  = (Raise (HTTPException 404 ("Meeting with ID '" +:+ meeting_id +:+ "' not found")),
     (read_data s).2)
  /\ status_of (DELETE_meeting meeting_id s).1 = 404%Z
  /\ (DELETE_meeting meeting_id s).2 = (read_data s).2
  /\ (is_Some s -> (delete_meeting meeting_id s).2 = s)
  /\ holds (delete_meeting meeting_id s).2 top ms.
Proof.
  intros H Hno. pose proof (read_data_holds _ _ _ H) as Hr.
  assert (delete_meeting meeting_id s
          = (Raise (HTTPException 404
                      ("Meeting with ID '" +:+ meeting_id +:+ "' not found")),
             (read_data s).2)) as Hd.
  { destruct H as [_ Hm].
    unfold delete_meeting. run. rewrite Hr. simpl. rewrite Hm. simpl.
    rewrite comprehension_records. simpl.
    rewrite !length_fmap.
    apply length_filter_eq in Hno. by rewrite Hno, Nat.eqb_refl. }
  split_and!.
  - done.
  - unfold DELETE_meeting, respond. by rewrite Hd.
  - unfold DELETE_meeting, respond. by rewrite Hd.
  - intros Hs. rewrite Hd. simpl.
    by rewrite read_data_state, ensure_data_file_exists.
  - rewrite Hd. simpl. destruct H as [Hr' Hm]. split; [|done].
    by rewrite read_data_again.
Qed.

(** What [delete_meeting] does on a collection of records. *)
Lemma delete_meeting_records (s : fs) (top : dict) (ms : list dict)
    (meeting_id : string) :
  holds s top ms ->
  delete_meeting meeting_id s
  = match list_find (fun m => has_id meeting_id m) ms with
    | None =>
        (Raise (HTTPException 404
                  ("Meeting with ID '" +:+ meeting_id +:+ "' not found")),
         (read_data s).2)
    | Some _ =>
        written
          (JDict (dict_set "meetings"
                    (JList (JDict <$> filter (fun m => ¬ has_id meeting_id m) ms))
                    top))
          {| SuccessResponse.success := true;
             SuccessResponse.message := "Meeting deleted successfully";
             SuccessResponse.data := None |}
    end.
Proof.
  intros H. pose proof (read_data_holds _ _ _ H) as Hr. destruct H as [_ Hm].
  unfold delete_meeting. run_body. rewrite Hr. simpl. rewrite Hm. simpl.
  rewrite comprehension_records. simpl. rewrite !length_fmap.
  destruct (list_find _ ms) as [[i m]|] eqn:Hf.
  - apply list_find_Some in Hf as (Hi & Hid & _).
    destruct (Nat.eqb _ (length ms)) eqn:E; [|write_step].
    apply Nat.eqb_eq, length_filter_eq in E.
    rewrite Forall_forall in E.
    destruct (E m); [by eapply list_elem_of_lookup_2|done].
  - apply list_find_None, length_filter_eq in Hf. by rewrite Hf, Nat.eqb_refl.
Qed.

Lemma list_find_Exists (meeting_id : string) (ms : list dict) :
  Exists (fun m => has_id meeting_id m) ms ->
  is_Some (list_find (fun m => has_id meeting_id m) ms).
Proof.
  intros Hex. destruct (list_find _ ms) as [p|] eqn:Hf; [done|].
  apply list_find_None in Hf. apply Exists_exists in Hex as (m & Hin & Hid).
  rewrite Forall_forall in Hf. by destruct (Hf m Hin).
Qed.

(** C4 (amended): when some record has the given id and the document
    without the records of that id can be written (no string of it holds a
    lone surrogate), the delete handler succeeds and writes that document:
    every record with the id is gone, every other record is kept, the kept
    records are in their old order, and the file then holds that filtered
    collection.  When the document cannot be written, the handler raises
    the 500 fault of the failed write and the file holds only the text
    written before the failure. *)
Theorem delete_removes_all_matches (s : fs) (top : dict) (ms : list dict)
    (meeting_id : string) :
  holds s top ms ->
  Exists (fun m => has_id meeting_id m) ms ->
  let kept := filter (fun m => ¬ has_id meeting_id m) ms in
  let top' := dict_set "meetings" (JList (JDict <$> kept)) top in
  (encodable (JDict top') = true ->
   delete_meeting meeting_id s
   = (Ok {| SuccessResponse.success := true;
            SuccessResponse.message := "Meeting deleted successfully";
            SuccessResponse.data := None |},
      Some (json_dump false (JDict top'))))
  /\ (encodable (JDict top') = false ->
      delete_meeting meeting_id s
      = (Raise (HTTPException 500
                  ("Failed to write data: " +:+ surrogates_not_allowed)),
         Some (json_dump_partial (JDict top'))))
  /\ (forall m, m ∈ kept <-> m ∈ ms /\ ¬ has_id meeting_id m)
  /\ sublist kept ms
  /\ (reads_back (JDict top') -> holds (Some (json_dump false (JDict top'))) top' kept).
Proof.
  intros H Hex kept top'.
  pose proof (delete_meeting_records _ _ _ meeting_id H) as Hd.
  destruct (list_find_Exists _ _ Hex) as [p Hp]. rewrite Hp in Hd.
  fold kept in Hd. fold top' in Hd.
  split_and!.
  - intros Henc. by rewrite Hd, written_ok.
  - intros Henc. by rewrite Hd, written_failed.
  - intros m. unfold kept. rewrite list_elem_of_filter. tauto.
  - apply sublist_filter.
  - intros [_ Hrb]. split; [by rewrite Hrb|]. apply dict_get_set_eq.
Qed.

(** The handler itself never raises its 400: on every model the route can
    pass to it, it writes the document of the model. *)
Lemma save_all_meetings_succeeds (data : MeetingsData.t) (s : fs) :
  save_all_meetings data s
  = written (MeetingsData.model_dump data)
      {| SuccessResponse.success := true;
         SuccessResponse.message := "All meetings data saved successfully";
         SuccessResponse.data := None |}.
Proof.
  unfold save_all_meetings. run_body. cbn [MeetingsData.hasattr_meetings negb].
  write_step.
Qed.

(** C3 (amended): a bulk request whose body validates as
    [{"meetings": [...]}] and whose records can be written (no string of
    them holds a lone surrogate) succeeds in every prior state of the file
    and writes the document of the supplied records over it; the file then
    reads as exactly those records, a fetch is answered from the supplied
    records alone, and fetching any id that no supplied record carries (the
    id of a record stored before, for one) answers 404.  When the records
    cannot be written the request is answered with 500 and the file holds
    only the text written before the failure. *)
Theorem bulk_replace_overwrites (s : fs) (body : JSON) (data : MeetingsData.t) :
  MeetingsData.validate body = Some data ->
  let supplied := MeetingsData.meetings data in
  let s' := Some (json_dump false (document supplied)) in
  (encodable (document supplied) = true ->
   POST_meetings_bulk body s
   = (JSONResponse 200
        (SuccessResponse.to_json
           {| SuccessResponse.success := true;
              SuccessResponse.message := "All meetings data saved successfully";
              SuccessResponse.data := None |}), s'))
  /\ (encodable (document supplied) = false ->
      POST_meetings_bulk body s
      = (JSONResponse 500
           (JDict [("detail",
                    JStr ("Failed to write data: " +:+ surrogates_not_allowed))]),
         Some (json_dump_partial (document supplied))))
  /\ (reads_back (document supplied) ->
      read_data s' = (Ok (document supplied), s')
      /\ (forall meeting_id,
            get_meeting_by_id meeting_id s'
            = (match list_find (fun m => has_id meeting_id m) supplied with
               | Some (_, m) => Ok (JDict m)
               | None =>
                   Raise (HTTPException 404
                            ("Meeting with ID '" +:+ meeting_id +:+ "' not found"))
               end, s'))
      /\ (forall meeting_id,
            Forall (fun m => ¬ has_id meeting_id m) supplied ->
            get_meeting_by_id meeting_id s'
            = (Raise (HTTPException 404
                        ("Meeting with ID '" +:+ meeting_id +:+ "' not found")), s')
            /\ status_of (GET_meeting meeting_id s').1 = 404%Z)).
Proof.
  intros Hv supplied s'.
  assert (POST_meetings_bulk body s
          = respond success_model (save_all_meetings data) s) as Hp.
  { unfold POST_meetings_bulk, with_body. by rewrite Hv. }
  unfold respond in Hp. rewrite save_all_meetings_succeeds in Hp.
  change (MeetingsData.model_dump data) with (document supplied) in Hp.
  split_and!.
  - intros Henc. rewrite Hp, written_ok by done. unfold success_model.
    by rewrite render_envelope.
  - intros Henc. by rewrite Hp, written_failed.
  - intros [_ Hrb].
    assert (holds s' [("meetings", JList (JDict <$> supplied))] supplied) as H.
    { split; [|done]. unfold s'. by rewrite Hrb. }
    split_and!; [done| |].
    + intros meeting_id. by rewrite (get_meeting_by_id_records _ _ _ meeting_id H).
    + intros meeting_id Hno.
      pose proof (get_meeting_by_id_records _ _ _ meeting_id H) as Hg.
      rewrite (proj2 (list_find_None (fun m : dict => has_id meeting_id m) supplied) Hno)
        in Hg.
      split; [done|]. unfold GET_meeting, respond. by rewrite Hg.
Qed.

Lemma create_meeting_appends (s : fs) (top : dict) (items : list JSON)
    (uuid4 : string) (meeting : MeetingCreate.t) :
  (read_data s).1 = Ok (JDict top) ->
  dict_get "meetings" top = Some (JList items) ->
  let record := dict_set "id" (JStr uuid4) (MeetingCreate.model_dump meeting) in
  create_meeting uuid4 meeting s
  = written (JDict (dict_set "meetings" (JList (items ++ [JDict record])) top))
      {| SuccessResponse.success := true;
         SuccessResponse.message := "Meeting created successfully";
         SuccessResponse.data := Some (JDict record) |}.
Proof.
  intros Hr Hm record. unfold create_meeting. run_body.
  destruct (read_data s) as [r s1]. simpl in Hr. subst r. simpl.
  rewrite Hm. simpl. write_step.
Qed.

(** The file after a create on a collection of records, when the new
    document can be written. *)
Lemma create_meeting_state (s : fs) (top : dict) (ms : list dict)
    (uuid4 : string) (meeting : MeetingCreate.t) :
  holds s top ms ->
  let record := dict_set "id" (JStr uuid4) (MeetingCreate.model_dump meeting) in
  let top' := dict_set "meetings" (JList (JDict <$> (ms ++ [record]))) top in
  encodable (JDict top') = true ->
  (create_meeting uuid4 meeting s).2 = Some (json_dump false (JDict top')).
Proof.
  intros [Hr Hm] record top' Henc.
  rewrite (create_meeting_appends s top (JDict <$> ms) uuid4 meeting Hr Hm).
  cbv zeta. fold record.
  replace ((JDict <$> ms) ++ [JDict record]) with (JDict <$> (ms ++ [record]))
    by (by rewrite fmap_app).
  fold top'. by rewrite written_ok.
Qed.

Lemma dict_get_extra_of (k : string) (kvs : dict) :
  k ∉ meeting_fields -> dict_get k (extra_of kvs) = dict_get k kvs.
Proof.
  intros Hk. unfold extra_of. induction kvs as [|[k0 v0] kvs IH]; [done|].
  rewrite filter_cons. simpl. destruct (String.eqb k0 k) eqn:E.
  - apply String.eqb_eq in E. subst k0. rewrite decide_True by done.
    simpl. by rewrite String.eqb_refl.
  - case_decide; simpl; [by rewrite E|done].
Qed.

Lemma dict_get_extra_of_field (k : string) (kvs : dict) :
  k ∈ meeting_fields -> dict_get k (extra_of kvs) = None.
Proof.
  intros Hk. apply dict_get_None. unfold dict_keys, extra_of.
  intros ([k' v] & -> & [Hnot _]%list_elem_of_filter)%list_elem_of_fmap. done.
Qed.



Lemma MeetingCreate_validate_inv (body : JSON) (m : MeetingCreate.t) :
  MeetingCreate.validate body = Some m ->
  exists kvs, body = JDict kvs
  /\ dict_get "title" kvs = Some (JStr (MeetingCreate.title m))
  /\ validate_optional validate_str (dict_get "date" kvs)
     = Some (MeetingCreate.date m)
  /\ validate_optional validate_str (dict_get "time" kvs)
     = Some (MeetingCreate.time m)
  /\ validate_optional validate_list_str (dict_get "participants" kvs)
     = Some (MeetingCreate.participants m)
  /\ validate_optional validate_str (dict_get "agenda" kvs)
     = Some (MeetingCreate.agenda m)
  /\ validate_optional validate_str (dict_get "notes" kvs)
     = Some (MeetingCreate.notes m)
  /\ MeetingCreate.extra m = extra_of kvs.
Proof.
  unfold MeetingCreate.validate. intros H.
  destruct body as [| | | | |?|kvs]; try done. simpl in H. exists kvs.
  destruct (dict_get "title" kvs) as [[| | | |t| |]|]; try done. simpl in H.
  destruct (validate_optional validate_str (dict_get "date" kvs)); [|done].
  destruct (validate_optional validate_str (dict_get "time" kvs)); [|done].
  destruct (validate_optional validate_list_str (dict_get "participants" kvs));
    [|done].
  destruct (validate_optional validate_str (dict_get "agenda" kvs)); [|done].
  destruct (validate_optional validate_str (dict_get "notes" kvs)); [|done].
  simpl in H. by simplify_eq.
Qed.


Lemma has_id_set (meeting_id : string) (m : dict) :
  has_id meeting_id (dict_set "id" (JStr meeting_id) m) = true.
Proof.
  unfold has_id. rewrite dict_get_set_eq. simpl. apply String.eqb_refl.
Qed.


Lemma id_not_field : "id" ∉ meeting_fields.
Proof. unfold meeting_fields. not_in_list. Qed.




(** The loop of [update_meeting] on a collection of records: it stops at
    the first record with the id, merges the update into it in place and
    writes the document. *)
Lemma update_loop_records (top : dict) (meeting_id : string)
    (u : MeetingUpdate.t) (items pre : list dict) (s : fs) :
  dict_get "meetings" top = Some (JList (JDict <$> (pre ++ items))) ->
  update_loop (JDict top) meeting_id u (length pre) (JDict <$> items) s
  = match list_find (fun m => has_id meeting_id m) items with
    | None => (Ok None, s)
    | Some (j, m) =>
        let m' := dict_update m (MeetingUpdate.model_dump_exclude_unset u) in
        written
          (JDict (dict_set "meetings"
                    (JList (JDict <$> <[length pre + j := m']> (pre ++ items)))
                    top))
          (Some {| SuccessResponse.success := true;
                   SuccessResponse.message := "Meeting updated successfully";
                   SuccessResponse.data := Some (JDict m') |})
    end.
Proof.
  revert pre. induction items as [|m items IH]; intros pre Hm; [done|].
  rewrite fmap_cons. simpl. run. fold (has_id meeting_id m).
  destruct (has_id meeting_id m) eqn:E; simpl.
  - rewrite Hm. simpl.
    rewrite list_lookup_fmap, list_lookup_middle by done. simpl.
    rewrite decide_True by (rewrite length_fmap, length_app; simpl; lia).
    rewrite Nat.add_0_r, list_fmap_insert. write_step.
  - specialize (IH (pre ++ [m])).
    rewrite length_app, Nat.add_1_r, <- app_assoc in IH. simpl in IH.
    rewrite (IH Hm).
    destruct (list_find _ items) as [[j m0]|]; simpl; [|done].
    by rewrite Nat.add_succ_r.
Qed.

Lemma update_meeting_records (s : fs) (top : dict) (ms : list dict)
    (meeting_id : string) (u : MeetingUpdate.t) :
  holds s top ms ->
  update_meeting meeting_id u s
  = match list_find (fun m => has_id meeting_id m) ms with
    | None =>
        (Raise (HTTPException 404
                  ("Meeting with ID '" +:+ meeting_id +:+ "' not found")),
         (read_data s).2)
    | Some (i, m) =>
        let m' := dict_update m (MeetingUpdate.model_dump_exclude_unset u) in
        written
          (JDict (dict_set "meetings" (JList (JDict <$> <[i := m']> ms)) top))
          {| SuccessResponse.success := true;
             SuccessResponse.message := "Meeting updated successfully";
             SuccessResponse.data := Some (JDict m') |}
    end.
Proof.
  intros H. pose proof (read_data_holds _ _ _ H) as Hr. destruct H as [_ Hm].
  unfold update_meeting. run. rewrite Hr. simpl. rewrite Hm. simpl.
  rewrite (update_loop_records top meeting_id u ms [] _ Hm).
  destruct (list_find _ ms) as [[i m]|]; [|done].
  cbv zeta. unfold written. by destruct (encodable (JDict _)).
Qed.

Lemma dump_field_str (name : string) (o : option JSON)
    (f : option (option string)) :
  MeetingUpdate.validate_field validate_str o = Some f ->
  MeetingUpdate.dump_field name JStr f = field_entry name o.
Proof.
  destruct o as [v|]; simpl; [|by intros [= <-]].
  destruct v; simpl; intros H; simplify_eq; done.
Qed.

Lemma dump_field_list (name : string) (o : option JSON)
    (f : option (option (list string))) :
  MeetingUpdate.validate_field validate_list_str o = Some f ->
  MeetingUpdate.dump_field name dump_list_str f = field_entry name o.
Proof.
  destruct o as [v|]; simpl; [|by intros [= <-]].
  destruct v; simpl; intros H; simplify_eq; try done.
  destruct (mapM validate_str items) as [l|] eqn:E; simpl in H; simplify_eq.
  simpl. unfold dump_list_str. by rewrite (mapM_validate_str _ _ E).
Qed.

(** The dumped update is the body's entries for the declared fields it
    has, in declaration order, followed by its other entries. *)
Lemma MeetingUpdate_model_dump_body (kvs : dict) (u : MeetingUpdate.t) :
  MeetingUpdate.validate (JDict kvs) = Some u ->
  MeetingUpdate.model_dump_exclude_unset u
  = field_entry "title" (dict_get "title" kvs)
    ++ field_entry "date" (dict_get "date" kvs)
    ++ field_entry "time" (dict_get "time" kvs)
    ++ field_entry "participants" (dict_get "participants" kvs)
    ++ field_entry "agenda" (dict_get "agenda" kvs)
    ++ field_entry "notes" (dict_get "notes" kvs)
    ++ extra_of kvs.
Proof.
  unfold MeetingUpdate.validate, MeetingUpdate.model_dump_exclude_unset.
  simpl. intros H.
  destruct (MeetingUpdate.validate_field validate_str (dict_get "title" kvs))
    as [f1|] eqn:E1; [|done].
  destruct (MeetingUpdate.validate_field validate_str (dict_get "date" kvs))
    as [f2|] eqn:E2; [|done].
  destruct (MeetingUpdate.validate_field validate_str (dict_get "time" kvs))
    as [f3|] eqn:E3; [|done].
  destruct (MeetingUpdate.validate_field validate_list_str
              (dict_get "participants" kvs)) as [f4|] eqn:E4; [|done].
  destruct (MeetingUpdate.validate_field validate_str (dict_get "agenda" kvs))
    as [f5|] eqn:E5; [|done].
  destruct (MeetingUpdate.validate_field validate_str (dict_get "notes" kvs))
    as [f6|] eqn:E6; [|done].
  simpl in H. simplify_eq. simpl.
  by rewrite (dump_field_str _ _ _ E1), (dump_field_str _ _ _ E2),
    (dump_field_str _ _ _ E3), (dump_field_list _ _ _ E4),
    (dump_field_str _ _ _ E5), (dump_field_str _ _ _ E6).
Qed.

Lemma dict_get_field_entry (k name : string) (o : option JSON) (rest : dict) :
  dict_get k (field_entry name o ++ rest)
  = if String.eqb name k then
      match o with Some v => Some v | None => dict_get k rest end
    else dict_get k rest.
Proof. destruct o; simpl; by destruct (String.eqb name k). Qed.

(** The dumped update binds each key to the value the body gives it. *)
Lemma MeetingUpdate_model_dump_get (kvs : dict) (u : MeetingUpdate.t) (k : string) :
  MeetingUpdate.validate (JDict kvs) = Some u ->
  dict_get k (MeetingUpdate.model_dump_exclude_unset u) = dict_get k kvs.
Proof.
  intros Hv. rewrite (MeetingUpdate_model_dump_body kvs u Hv).
  rewrite !dict_get_field_entry.
  destruct (decide (k ∈ meeting_fields)) as [Hin|Hnotin].
  - pose proof (dict_get_extra_of_field k kvs Hin) as He.
    unfold meeting_fields in Hin. rewrite !elem_of_cons in Hin.
    destruct Hin as [->|[->|[->|[->|[->|[->|[]%elem_of_nil]]]]]]; simpl;
      rewrite He; by destruct (dict_get _ kvs).
  - rewrite (dict_get_extra_of k kvs Hnotin).
    unfold meeting_fields in Hnotin. rewrite !not_elem_of_cons in Hnotin.
    destruct Hnotin as (H1 & H2 & H3 & H4 & H5 & H6 & _).
    apply not_eq_sym, String.eqb_neq in H1, H2, H3, H4, H5, H6.
    by rewrite H1, H2, H3, H4, H5, H6.
Qed.

Lemma field_entry_keys (name : string) (o : option JSON) :
  dict_keys (field_entry name o) `sublist_of` [name].
Proof. destruct o; simpl; [done|apply sublist_nil_l]. Qed.

(** A body with distinct keys dumps to an update with distinct keys. *)
Lemma MeetingUpdate_model_dump_NoDup (kvs : dict) (u : MeetingUpdate.t) :
  MeetingUpdate.validate (JDict kvs) = Some u ->
  NoDup (dict_keys kvs) ->
  NoDup (dict_keys (MeetingUpdate.model_dump_exclude_unset u)).
Proof.
  intros Hv Hnd. rewrite (MeetingUpdate_model_dump_body kvs u Hv).
  rewrite !app_assoc. unfold dict_keys. rewrite fmap_app.
  apply NoDup_app. split_and!.
  - assert (NoDup meeting_fields) as Hf.
    { unfold meeting_fields.
      repeat (apply NoDup_cons_2; [not_in_list|]). apply NoDup_nil_2. }
    eapply sublist_NoDup; [exact Hf|].
    rewrite !fmap_app.
    change meeting_fields
      with ((((([ "title" ] ++ [ "date" ]) ++ [ "time" ]) ++ [ "participants" ])
              ++ [ "agenda" ]) ++ [ "notes" ]).
    repeat apply sublist_app; apply field_entry_keys.
  - intros k Hk Hk'.
    assert (k ∈ meeting_fields) as Hin.
    { eapply elem_of_sublist; [exact Hk|]. rewrite !fmap_app.
      change meeting_fields
        with ((((([ "title" ] ++ [ "date" ]) ++ [ "time" ]) ++ [ "participants" ])
                ++ [ "agenda" ]) ++ [ "notes" ]).
      repeat apply sublist_app; apply field_entry_keys. }
    apply (dict_get_None k (extra_of kvs)); [|exact Hk'].
    by apply dict_get_extra_of_field.
  - eapply sublist_NoDup; [exact Hnd|].
    apply fmap_sublist. apply sublist_filter.
Qed.


(** C10: the update merge applies the key ["id"] like any other key of the
    request body.  When the body gives ["id"] a value, the merged record
    carries that value as its id; when the document with the merged record
    can be written, the handler stores it in place of the matched one; if
    the value is not the path identifier, the record no longer answers to
    the id it was found under, and a record elsewhere in the collection
    that already carries the new id stays, so two records then share an
    id. *)
Theorem update_can_change_id (s : fs) (top : dict) (ms : list dict)
    (meeting_id : string) (kvs : dict) (u : MeetingUpdate.t) (i : nat)
    (m : dict) (new_id : JSON) :
  holds s top ms ->
  list_find (fun m => has_id meeting_id m) ms = Some (i, m) ->
  MeetingUpdate.validate (JDict kvs) = Some u ->
  NoDup (dict_keys kvs) ->
  dict_get "id" kvs = Some new_id ->
  let m' := dict_update m (MeetingUpdate.model_dump_exclude_unset u) in
  let ms' := <[i := m']> ms in
  let data' := JDict (dict_set "meetings" (JList (JDict <$> ms')) top) in
  (encodable data' = true ->
   update_meeting meeting_id u s
   = (Ok {| SuccessResponse.success := true;
            SuccessResponse.message := "Meeting updated successfully";
            SuccessResponse.data := Some (JDict m') |},
      Some (json_dump false data')))
  /\ ms' !! i = Some m'
  /\ dict_get "id" m' = Some new_id
  /\ (new_id <> JStr meeting_id -> has_id meeting_id m' = false)
  /\ (forall (j : nat) (other : dict) (other_id : string),
        j <> i -> ms !! j = Some other -> has_id other_id other = true ->
        new_id = JStr other_id ->
        ms' !! j = Some other /\ has_id other_id m' = true).
Proof.
  intros H Hfind Hv Hnd Hid m' ms' data'.
  assert (dict_get "id" m' = Some new_id) as Hid'.
  { apply dict_get_update_merged.
    - by apply (MeetingUpdate_model_dump_NoDup kvs).
    - by rewrite (MeetingUpdate_model_dump_get kvs u "id" Hv). }
  split_and!.
  - intros Henc.
    rewrite (update_meeting_records s top ms meeting_id u H), Hfind.
    cbv zeta. fold m'. fold ms'. fold data'. by rewrite written_ok.
  - apply list_find_Some in Hfind as (Hi & _ & _).
    apply list_lookup_insert_eq. by eapply lookup_lt_Some.
  - done.
  - intros Hne. unfold has_id. rewrite Hid'. simpl.
    destruct new_id; simpl; try done.
    apply String.eqb_neq. congruence.
  - intros j other other_id Hj Hother Hoid ->. split.
    + unfold ms'. by rewrite list_lookup_insert_ne.
    + unfold has_id. rewrite Hid'. simpl. apply String.eqb_refl.
Qed.

(** A bulk body without the ["meetings"] key does not validate, so the
    route answers 422 before the handler runs and the file is untouched. *)
Lemma bulk_without_meetings_rejected (kvs : dict) (s : fs) :
  dict_get "meetings" kvs = None ->
  POST_meetings_bulk (JDict kvs) s = (RequestValidationError, s).
Proof.
  intros Hk. unfold POST_meetings_bulk, with_body, MeetingsData.validate.
  simpl. by rewrite Hk.
Qed.

(** ** Further properties of the handlers *)

Lemma dict_set_same (k : string) (v : JSON) (d : dict) :
  dict_get k d = Some v -> dict_set k v d = d.
Proof.
  induction d as [|[k0 v0] d IH]; simpl; [done|].
  destruct (String.eqb k0 k); [by intros [= ->]|].
  intros H. by rewrite IH.
Qed.

Lemma dict_update_same (d upd : dict) :
  (forall k v, (k, v) ∈ upd -> dict_get k d = Some v) -> dict_update d upd = d.
Proof.
  unfold dict_update. induction upd as [|[k v] upd IH]; intros H; simpl; [done|].
  rewrite dict_set_same by (apply H; apply list_elem_of_here).
  apply IH. intros k' v' Hin. apply H. by apply list_elem_of_further.
Qed.

Lemma dict_get_elem_NoDup (k : string) (v : JSON) (d : dict) :
  NoDup (dict_keys d) -> (k, v) ∈ d -> dict_get k d = Some v.
Proof.
  unfold dict_keys. induction d as [|[k0 v0] d IH]; simpl.
  - by intros _ ?%elem_of_nil.
  - rewrite NoDup_cons, elem_of_cons. intros [Hnotin Hnd] [[= -> ->]|Hin].
    + by rewrite String.eqb_refl.
    + destruct (String.eqb k0 k) eqn:E; [|by apply IH].
      apply String.eqb_eq in E. subst k0. destruct Hnotin.
      change k with ((k, v).1). by apply list_elem_of_fmap_2.
Qed.

Lemma has_id_true (meeting_id : string) (m : dict) :
  has_id meeting_id m = true <-> dict_get "id" m = Some (JStr meeting_id).
Proof.
  unfold has_id. destruct (dict_get "id" m) as [[| | | |s| |]|]; simpl;
    try (split; [discriminate|by intros [=]]).
  rewrite String.eqb_eq. split; [by intros ->|by intros [= ->]].
Qed.

(** A record answers to one id at most. *)
Lemma has_id_other (meeting_id other : string) (m : dict) :
  has_id other m = true -> other <> meeting_id -> has_id meeting_id m = false.
Proof.
  intros H%has_id_true Hne. unfold has_id. rewrite H. simpl.
  by apply String.eqb_neq.
Qed.

Lemma filter_no_match (meeting_id : string) (ms : list dict) :
  Forall (fun m => ¬ has_id meeting_id m) ms ->
  filter (fun m => ¬ has_id meeting_id m) ms = ms.
Proof.
  induction 1 as [|m ms Hm _ IH]; [done|].
  by rewrite filter_cons_True, IH.
Qed.

(** Filtering out the records of one id does not change which record is
    the first of another id. *)
Lemma list_find_filter_other (meeting_id other : string) (ms : list dict) :
  other <> meeting_id ->
  snd <$> list_find (fun m => has_id other m)
            (filter (fun m => ¬ has_id meeting_id m) ms)
  = snd <$> list_find (fun m => has_id other m) ms.
Proof.
  intros Hne. induction ms as [|m ms IH]; [done|].
  destruct (has_id other m) eqn:Eo.
  - pose proof (has_id_other meeting_id other m Eo Hne) as Ei.
    rewrite filter_cons_True by (by apply Is_true_false_2).
    simpl. by rewrite !decide_True by (by apply Is_true_true_2).
  - simpl. rewrite (decide_False (P := Is_true (has_id other m)))
      by (by apply Is_true_false_2).
    destruct (has_id meeting_id m) eqn:Ei.
    + rewrite filter_cons_False
        by (intros H; apply H; by apply Is_true_true_2).
      rewrite IH. by destruct (list_find _ ms) as [[??]|].
    + rewrite filter_cons_True by (by apply Is_true_false_2).
      simpl. rewrite decide_False by (by apply Is_true_false_2).
      destruct (list_find _ (filter _ ms)) as [[??]|];
        destruct (list_find _ ms) as [[??]|]; simpl in *; congruence.
Qed.

(** [read_data] returns a value or raises the 500 fault, and leaves the
    file as [ensure_data_file] leaves it. *)
Lemma read_data_outcome (s : fs) :
  (exists v, read_data s = (Ok v, (ensure_data_file s).2))
  \/ (exists detail,
        read_data s = (Raise (HTTPException 500 detail), (ensure_data_file s).2)).
Proof.
  assert (forall content,
    (exists v, read_data (Some content) = (Ok v, Some content))
    \/ (exists detail,
          read_data (Some content)
          = (Raise (HTTPException 500 detail), Some content))) as Hsome.
  { intros content. rewrite read_data_Some.
    destruct (decode_text content) as [text|e]; [|by right; eexists].
    destruct (str_bool _); [|by left; eexists].
    destruct (json_loads text) as [v|[]];
      try (by left; eexists); by right; eexists. }
  destruct s as [content|]; [apply Hsome|].
  rewrite read_data_None. apply Hsome.
Qed.

(** The operations on Python values raise no [HTTPException]. *)
Lemma py_getitem_raises (obj : JSON) (key : string) (e : exn) :
  py_getitem obj key = Raise e -> is_HTTPException e = false.
Proof.
  destruct obj; simpl; try (by intros [= <-]).
  destruct (dict_get key kvs); by intros [= <-].
Qed.

Lemma py_get_raises (obj : JSON) (key : string) (e : exn) :
  py_get obj key = Raise e -> is_HTTPException e = false.
Proof. destruct obj; simpl; by intros [= <-]. Qed.

Lemma py_append_raises (obj x : JSON) (e : exn) :
  py_append obj x = Raise e -> is_HTTPException e = false.
Proof. destruct obj; simpl; by intros [= <-]. Qed.

Lemma py_setitem_raises (obj : JSON) (key : string) (v : JSON) (e : exn) :
  py_setitem obj key v = Raise e -> is_HTTPException e = false.
Proof. destruct obj; simpl; by intros [= <-]. Qed.

Lemma py_len_raises (obj : JSON) (e : exn) :
  py_len obj = Raise e -> is_HTTPException e = false.
Proof. destruct obj; simpl; by intros [= <-]. Qed.

Lemma py_iter_raises (obj : JSON) (e : exn) :
  py_iter obj = Raise e -> is_HTTPException e = false.
Proof. destruct obj; simpl; by intros [= <-]. Qed.

Lemma py_update_raises (obj : JSON) (upd : dict) (e : exn) :
  py_update obj upd = Raise e -> is_HTTPException e = false.
Proof. destruct obj; simpl; by intros [= <-]. Qed.

Lemma py_getitem_int_raises (obj : JSON) (i : nat) (e : exn) :
  py_getitem_int obj i = Raise e -> is_HTTPException e = false.
Proof.
  destruct obj; simpl; try (by intros [= <-]).
  - destruct (utf8_chars s !! i); by intros [= <-].
  - destruct (items !! i); by intros [= <-].
Qed.

Lemma py_setitem_int_raises (obj : JSON) (i : nat) (v : JSON) (e : exn) :
  py_setitem_int obj i v = Raise e -> is_HTTPException e = false.
Proof.
  destruct obj; simpl; try (by intros [= <-]).
  case_decide; by intros [= <-].
Qed.

Lemma find_meeting_raises (meeting_id : string) (items : list JSON) (e : exn) :
  find_meeting meeting_id items = Raise e -> is_HTTPException e = false.
Proof.
  induction items as [|x items IH]; simpl; [done|]. run.
  destruct (py_get x "id") as [v|e'] eqn:E.
  - destruct (py_eq_str v meeting_id); [done|apply IH].
  - intros [= <-]. by eapply py_get_raises.
Qed.

Lemma comprehension_raises (meeting_id : string) (items : list JSON) (e : exn) :
  comprehension meeting_id items = Raise e -> is_HTTPException e = false.
Proof.
  induction items as [|x items IH]; simpl; [done|]. run.
  destruct (py_get x "id") as [v|e'] eqn:E.
  - destruct (comprehension meeting_id items); [done|].
    intros [= <-]. by apply IH.
  - intros [= <-]. by eapply py_get_raises.
Qed.

(** What reraising does to an exception that is not an [HTTPException]. *)
Lemma reraise_other {A} (what : string) (e : exn) (s : fs) :
  is_HTTPException e = false ->
  reraise (A := A) what e s
  = (Raise (HTTPException 500 (what +:+ ": " +:+ exn_str e)), s).
Proof. by destruct e. Qed.

(** The file exists after a write, whether it failed or not. *)
Lemma written_state {A} (data : JSON) (value : A) :
  is_Some (written data value).2.
Proof. unfold written. by destruct (encodable data). Qed.

Lemma written_cases {A} (data : JSON) (value : A) :
  (encodable data = true
   /\ written data value = (Ok value, Some (json_dump false data)))
  \/ (encodable data = false
      /\ written data value
         = (Raise (HTTPException 500
                     ("Failed to write data: " +:+ surrogates_not_allowed)),
            Some (json_dump_partial data))).
Proof. unfold written. destruct (encodable data); [by left|by right]. Qed.

(** The loop of [update_meeting] on any items: it ends in one write, or
    ends without a match, or raises, having written nothing. *)
Lemma update_loop_outcome (data : JSON) (meeting_id : string)
    (u : MeetingUpdate.t) (items : list JSON) (i : nat) (s : fs) :
  (exists r d, update_loop data meeting_id u i items s = written d (Some r))
  \/ update_loop data meeting_id u i items s = (Ok None, s)
  \/ (exists e, update_loop data meeting_id u i items s = (Raise e, s)
                /\ is_HTTPException e = false).
Proof.
  revert i. induction items as [|x items IH]; intros i; simpl; [by right; left|].
  run.
  destruct (py_get x "id") as [v|e] eqn:E1; simpl;
    [|right; right; eexists; split; [done|by eapply py_get_raises]].
  destruct (py_eq_str v meeting_id); [|apply IH].
  destruct (py_getitem data "meetings") as [ms|e] eqn:E2; simpl;
    [|right; right; eexists; split; [done|by eapply py_getitem_raises]].
  destruct (py_getitem_int ms i) as [target|e] eqn:E3; simpl;
    [|right; right; eexists; split; [done|by eapply py_getitem_int_raises]].
  destruct (py_update target _) as [target'|e] eqn:E4; simpl;
    [|right; right; eexists; split; [done|by eapply py_update_raises]].
  destruct (py_setitem_int ms i target') as [ms'|e] eqn:E5; simpl;
    [|right; right; eexists; split; [done|by eapply py_setitem_int_raises]].
  destruct (py_setitem data "meetings" ms') as [data'|e] eqn:E6; simpl;
    [|right; right; eexists; split; [done|by eapply py_setitem_raises]].
  left. eexists _, data'. write_step.
Qed.

Lemma create_meeting_outcome (uuid4 : string) (meeting : MeetingCreate.t)
    (s : fs) :
  (exists r d, create_meeting uuid4 meeting s = written d r)
  \/ (exists detail,
        create_meeting uuid4 meeting s
        = (Raise (HTTPException 500 detail), (read_data s).2)).
Proof.
  unfold create_meeting. run_body.
  destruct (read_data_outcome s) as [[data Hr]|[detail Hr]]; rewrite Hr; simpl;
    [|by right; eexists].
  destruct (py_getitem data "meetings") as [ms|e] eqn:E1; simpl;
    [|right; eexists; by rewrite (reraise_other _ _ _ (py_getitem_raises _ _ _ E1))].
  destruct (py_append ms _) as [ms'|e] eqn:E2; simpl;
    [|right; eexists; by rewrite (reraise_other _ _ _ (py_append_raises _ _ _ E2))].
  destruct (py_setitem data "meetings" ms') as [data'|e] eqn:E3; simpl;
    [|right; eexists; by rewrite (reraise_other _ _ _ (py_setitem_raises _ _ _ _ E3))].
  left. eexists _, data'. write_step.
Qed.

Lemma update_meeting_outcome (meeting_id : string) (u : MeetingUpdate.t) (s : fs) :
  (exists r d, update_meeting meeting_id u s = written d r)
  \/ (exists c detail,
        update_meeting meeting_id u s
        = (Raise (HTTPException c detail), (read_data s).2)
        /\ (c = 404 \/ c = 500)%Z).
Proof.
  unfold update_meeting. run_body.
  destruct (read_data_outcome s) as [[data Hr]|[detail Hr]]; rewrite Hr; simpl;
    [|right; do 2 eexists; split; [done|by right]].
  destruct (py_getitem data "meetings") as [ms|e] eqn:E1; simpl;
    [|right; do 2 eexists;
      rewrite (reraise_other _ _ _ (py_getitem_raises _ _ _ E1));
      split; [done|by right]].
  destruct (py_iter ms) as [items|e] eqn:E2; simpl;
    [|right; do 2 eexists;
      rewrite (reraise_other _ _ _ (py_iter_raises _ _ E2));
      split; [done|by right]].
  destruct (update_loop_outcome data meeting_id u items 0 (ensure_data_file s).2)
    as [(r & d & Hl)|[Hl|(e & Hl & He)]]; rewrite Hl.
  - left. exists r, d. unfold written. by destruct (encodable d).
  - right. do 2 eexists. split; [done|by left].
  - right. do 2 eexists. rewrite (reraise_other _ _ _ He). split; [done|by right].
Qed.

Lemma delete_meeting_outcome (meeting_id : string) (s : fs) :
  (exists r d, delete_meeting meeting_id s = written d r)
  \/ (exists c detail,
        delete_meeting meeting_id s
        = (Raise (HTTPException c detail), (read_data s).2)
        /\ (c = 404 \/ c = 500)%Z).
Proof.
  unfold delete_meeting. run_body.
  destruct (read_data_outcome s) as [[data Hr]|[detail Hr]]; rewrite Hr; simpl;
    [|right; do 2 eexists; split; [done|by right]].
  destruct (py_getitem data "meetings") as [ms|e] eqn:E1; simpl;
    [|right; do 2 eexists;
      rewrite (reraise_other _ _ _ (py_getitem_raises _ _ _ E1));
      split; [done|by right]].
  destruct (py_len ms) as [n|e] eqn:E2; simpl;
    [|right; do 2 eexists;
      rewrite (reraise_other _ _ _ (py_len_raises _ _ E2));
      split; [done|by right]].
  destruct (py_iter ms) as [items|e] eqn:E3; simpl;
    [|right; do 2 eexists;
      rewrite (reraise_other _ _ _ (py_iter_raises _ _ E3));
      split; [done|by right]].
  destruct (comprehension meeting_id items) as [kept|e] eqn:E4; simpl;
    [|right; do 2 eexists;
      rewrite (reraise_other _ _ _ (comprehension_raises _ _ _ E4));
      split; [done|by right]].
  destruct (py_setitem data "meetings" _) as [data'|e] eqn:E5; simpl;
    [|right; do 2 eexists;
      rewrite (reraise_other _ _ _ (py_setitem_raises _ _ _ _ E5));
      split; [done|by right]].
  destruct (Nat.eqb _ n); simpl.
  - right. do 2 eexists. split; [done|by left].
  - left. eexists _, data'. write_step.
Qed.

Lemma get_meeting_by_id_outcome (meeting_id : string) (s : fs) :
  (exists v, get_meeting_by_id meeting_id s = (Ok v, (read_data s).2))
  \/ (exists e, get_meeting_by_id meeting_id s = (Raise e, (read_data s).2)
                /\ ((exists c detail, e = HTTPException c detail
                                      /\ (c = 404 \/ c = 500)%Z)
                    \/ is_HTTPException e = false)).
Proof.
  unfold get_meeting_by_id. run.
  destruct (read_data_outcome s) as [[data Hr]|[detail Hr]]; rewrite Hr; simpl;
    [|right; eexists; split; [done|left; do 2 eexists; split; [done|by right]]].
  destruct (py_getitem data "meetings") as [ms|e] eqn:E1; simpl;
    [|right; eexists; split; [done|right; by eapply py_getitem_raises]].
  destruct (py_iter ms) as [items|e] eqn:E2; simpl;
    [|right; eexists; split; [done|right; by eapply py_iter_raises]].
  destruct (find_meeting meeting_id items) as [[v|]|e] eqn:E3; simpl.
  - left. by eexists.
  - right. eexists. split; [done|]. left. do 2 eexists. split; [done|by left].
  - right. eexists. split; [done|right; by eapply find_meeting_raises].
Qed.

Lemma get_all_meetings_eq (s : fs) : get_all_meetings s = read_data s.
Proof. unfold get_all_meetings. run. by destruct (read_data s) as [[v|e] s']. Qed.

(** X1: every handler leaves the data file in existence: whatever the
    file held or whether it existed, after any of the six handlers has run
    (successfully or not) the file exists. *)
Theorem handlers_leave_the_file_existing (s : fs) (uuid4 meeting_id : string)
    (meeting : MeetingCreate.t) (u : MeetingUpdate.t) (data : MeetingsData.t) :
  is_Some (get_all_meetings s).2
  /\ is_Some (get_meeting_by_id meeting_id s).2
  /\ is_Some (create_meeting uuid4 meeting s).2
  /\ is_Some (update_meeting meeting_id u s).2
  /\ is_Some (delete_meeting meeting_id s).2
  /\ is_Some (save_all_meetings data s).2.
Proof.
  assert (is_Some (read_data s).2) as Hs.
  { rewrite read_data_state. by destruct s. }
  split_and!.
  - by rewrite get_all_meetings_eq.
  - by destruct (get_meeting_by_id_outcome meeting_id s)
      as [[v ->]|(e & -> & _)].
  - destruct (create_meeting_outcome uuid4 meeting s)
      as [(r & d & ->)|(d & ->)]; [apply written_state|done].
  - destruct (update_meeting_outcome meeting_id u s)
      as [(r & d & ->)|(c & d & -> & _)]; [apply written_state|done].
  - destruct (delete_meeting_outcome meeting_id s)
      as [(r & d & ->)|(c & d & -> & _)]; [apply written_state|done].
  - rewrite save_all_meetings_succeeds. apply written_state.
Qed.

(** X2: the two read handlers never write over a file that exists: in every
    state of the file they leave it as [ensure_data_file] leaves it, and a
    file with any content, also a corrupt or malformed one, is left with
    that content by the handlers and by their routes. *)
Theorem reads_never_write (s : fs) (content meeting_id : string) :
  (get_all_meetings s).2 = (ensure_data_file s).2
  /\ (get_meeting_by_id meeting_id s).2 = (ensure_data_file s).2
  /\ (get_all_meetings (Some content)).2 = Some content
  /\ (get_meeting_by_id meeting_id (Some content)).2 = Some content
  /\ (GET_meetings (Some content)).2 = Some content
  /\ (GET_meeting meeting_id (Some content)).2 = Some content.
Proof.
  assert (forall s, (get_all_meetings s).2 = (ensure_data_file s).2) as H1
    by (intros s0; by rewrite get_all_meetings_eq, read_data_state).
  assert (forall s, (get_meeting_by_id meeting_id s).2 = (ensure_data_file s).2)
    as H2.
  { intros s0. rewrite <- read_data_state.
    by destruct (get_meeting_by_id_outcome meeting_id s0)
      as [[v ->]|(e & -> & _)]. }
  split_and!; [apply H1|apply H2|apply H1|apply H2| |].
  - unfold GET_meetings, respond. specialize (H1 (Some content)).
    destruct (get_all_meetings (Some content)) as [[v|[]] s'];
      simpl in *; by subst.
  - unfold GET_meeting, respond. specialize (H2 (Some content)).
    destruct (get_meeting_by_id meeting_id (Some content)) as [[v|[]] s'];
      simpl in *; by subst.
Qed.

(** X3: a mutating handler fails only with an HTTPException, and a
    handler that fails before its write has written nothing:
    [create_meeting] then fails with 500, [update_meeting] and
    [delete_meeting] with 404 or 500, and the file is left as reading it
    left it.  A handler that reaches its write either succeeds, and the
    file holds the document it wrote, or fails with the 500 of the failed
    write, and the file holds the text written before the failure. *)
Theorem mutations_write_only_on_success (s : fs) (uuid4 meeting_id : string)
    (meeting : MeetingCreate.t) (u : MeetingUpdate.t) :
  let outcome (h : result SuccessResponse.t * fs) (codes : list Z) :=
    (exists r d, encodable d = true /\ h = (Ok r, Some (json_dump false d)))
    \/ (exists d,
          encodable d = false
          /\ h = (Raise (HTTPException 500
                           ("Failed to write data: " +:+ surrogates_not_allowed)),
                  Some (json_dump_partial d)))
    \/ (exists c detail,
          h = (Raise (HTTPException c detail), (read_data s).2) /\ c ∈ codes) in
  outcome (create_meeting uuid4 meeting s) [500%Z]
  /\ outcome (update_meeting meeting_id u s) [404%Z; 500%Z]
  /\ outcome (delete_meeting meeting_id s) [404%Z; 500%Z].
Proof.
  intros outcome.
  assert (forall (r : SuccessResponse.t) d codes, outcome (written d r) codes) as Hw.
  { intros r d codes. destruct (written_cases d r) as [[Henc ->]|[Henc ->]].
    - left. by exists r, d.
    - right; left. by exists d. }
  split_and!.
  - destruct (create_meeting_outcome uuid4 meeting s)
      as [(r & d & ->)|(detail & ->)]; [apply Hw|].
    right; right. exists 500%Z, detail. split; [done|apply list_elem_of_here].
  - destruct (update_meeting_outcome meeting_id u s)
      as [(r & d & ->)|(c & detail & -> & Hc)]; [apply Hw|].
    right; right. exists c, detail. split; [done|].
    destruct Hc as [->| ->]; [apply list_elem_of_here|].
    apply list_elem_of_further, list_elem_of_here.
  - destruct (delete_meeting_outcome meeting_id s)
      as [(r & d & ->)|(c & detail & -> & Hc)]; [apply Hw|].
    right; right. exists c, detail. split; [done|].
    destruct Hc as [->| ->]; [apply list_elem_of_here|].
    apply list_elem_of_further, list_elem_of_here.
Qed.

(** X4: [read_data] never lets an exception through as it is: in every
    state of the file it returns a value or raises an HTTPException with
    status 500 whose detail starts with "Failed to read data: ". *)
Theorem read_data_faults_only_with_500 (s : fs) :
  (exists v, read_data s = (Ok v, (ensure_data_file s).2))
  \/ (exists e,
        read_data s
        = (Raise (HTTPException 500 ("Failed to read data: " +:+ exn_str e)),
           (ensure_data_file s).2)).
Proof.
  assert (forall content,
    (exists v, read_data (Some content) = (Ok v, Some content))
    \/ (exists e,
          read_data (Some content)
          = (Raise (HTTPException 500 ("Failed to read data: " +:+ exn_str e)),
             Some content))) as Hsome.
  { intros content. rewrite read_data_Some.
    destruct (decode_text content) as [text|e]; [|by right; eexists].
    destruct (str_bool _); [|by left; eexists].
    destruct (json_loads text) as [v|e] eqn:E; [by left; eexists|].
    destruct e; try (by left; eexists); by right; eexists. }
  destruct s as [content|]; [apply Hsome|].
  rewrite read_data_None. apply Hsome.
Qed.

Lemma str_bool_true (t : string) : t <> "" -> str_bool t = true.
Proof. by destruct t. Qed.


(** X6: the first read on a missing file creates it with the dump of
    [{"meetings": []}]; when the JSON codec reads that dump back, the read
    returns the empty document, listing answers 200 with it and fetching
    any id answers 404. *)
Theorem first_read_creates_the_file (text meeting_id : string) :
  decode_text (json_dump true empty_document) = Ok text ->
  str_strip text <> "" ->
  json_loads text = Ok empty_document ->
  let s' := Some (json_dump true empty_document) in
  read_data None = (Ok empty_document, s')
  /\ GET_meetings None = (JSONResponse 200 empty_document, s')
  /\ GET_meeting meeting_id None
     = (JSONResponse 404
          (JDict [("detail",
                   JStr ("Meeting with ID '" +:+ meeting_id +:+ "' not found"))]),
        s').
Proof.
  intros Hd Hs Hl s'.
  assert (read_data None = (Ok empty_document, s')) as Hr.
  { rewrite read_data_None.
    by rewrite read_data_Some, Hd, (str_bool_true _ Hs), Hl. }
  split_and!; [done| |].
  - unfold GET_meetings, respond. by rewrite get_all_meetings_eq, Hr.
  - unfold GET_meeting, respond, get_meeting_by_id. run. by rewrite Hr.
Qed.


(** X8: the record made for a valid create body always has the six
    declared fields and an id: "title" is the body's string, every other
    declared field the body leaves out is stored as [null], and "id" is
    the generated identifier. *)
Theorem created_record_has_every_field (uuid4 : string) (kvs : dict)
    (meeting : MeetingCreate.t) :
  MeetingCreate.validate (JDict kvs) = Some meeting ->
  let record := dict_set "id" (JStr uuid4) (MeetingCreate.model_dump meeting) in
  (forall k, k ∈ meeting_fields -> is_Some (dict_get k record))
  /\ (forall k, k ∈ meeting_fields -> dict_get k kvs = None ->
        dict_get k record = Some JNull)
  /\ dict_get "title" record = dict_get "title" kvs
  /\ (exists t, dict_get "title" record = Some (JStr t))
  /\ dict_get "id" record = Some (JStr uuid4).
Proof.
  intros Hv record.
  pose proof Hv as (kvs' & [= <-] & Ht & Hd & Hti & Hp & Ha & Hn & He)%MeetingCreate_validate_inv.
  assert (forall k, k ∈ meeting_fields ->
            dict_get k record = dict_get k (MeetingCreate.model_dump meeting)) as Hrec.
  { intros k Hk. unfold record. apply dict_get_set_ne.
    intros <-. by apply id_not_field. }
  split_and!.
  - intros k Hk. rewrite (Hrec k Hk).
    unfold meeting_fields in Hk. rewrite !elem_of_cons in Hk.
    destruct Hk as [->|[->|[->|[->|[->|[->|[]%elem_of_nil]]]]]]; by eexists.
  - intros k Hk Hnone. rewrite (Hrec k Hk).
    unfold meeting_fields in Hk. rewrite !elem_of_cons in Hk.
    destruct meeting as [t d ti p a n ex]. simpl in *.
    destruct Hk as [->|[->|[->|[->|[->|[->|[]%elem_of_nil]]]]]];
      rewrite Hnone in *; simpl in *; by simplify_eq.
  - rewrite (Hrec "title") by (unfold meeting_fields; apply list_elem_of_here).
    by rewrite Ht.
  - exists (MeetingCreate.title meeting).
    by rewrite (Hrec "title") by (unfold meeting_fields; apply list_elem_of_here).
  - apply dict_get_set_eq.
Qed.




Lemma list_find_insert_match (meeting_id : string) (ms : list dict) (i : nat)
    (m m' : dict) :
  list_find (fun m => has_id meeting_id m) ms = Some (i, m) ->
  has_id meeting_id m' = true ->
  list_find (fun m => has_id meeting_id m) (<[i := m']> ms) = Some (i, m').
Proof.
  intros (Hi & _ & Hfirst)%list_find_Some Hm'. apply list_find_Some.
  split_and!.
  - apply list_lookup_insert_eq. by eapply lookup_lt_Some.
  - by apply Is_true_true_2.
  - intros j y Hj Hlt. rewrite list_lookup_insert_ne in Hj by lia.
    by eapply Hfirst.
Qed.

(** An update whose body has no "id" key leaves the record's id alone. *)
Lemma has_id_after_update (meeting_id : string) (kvs : dict)
    (u : MeetingUpdate.t) (m : dict) :
  MeetingUpdate.validate (JDict kvs) = Some u ->
  dict_get "id" kvs = None ->
  has_id meeting_id (dict_update m (MeetingUpdate.model_dump_exclude_unset u))
  = has_id meeting_id m.
Proof.
  intros Hv Hid. unfold has_id. rewrite dict_get_update_frame; [done|].
  by rewrite (MeetingUpdate_model_dump_get kvs u "id" Hv).
Qed.


(** X13: an update whose body leaves "id" alone is idempotent: sent a
    second time it returns the same record and writes the same file. *)
Theorem update_twice_is_update_once (s : fs) (top : dict) (ms : list dict)
    (meeting_id : string) (kvs : dict) (u : MeetingUpdate.t) (i : nat) (m : dict) :
  holds s top ms ->
  list_find (fun m => has_id meeting_id m) ms = Some (i, m) ->
  MeetingUpdate.validate (JDict kvs) = Some u ->
  NoDup (dict_keys kvs) ->
  dict_get "id" kvs = None ->
  let m' := dict_update m (MeetingUpdate.model_dump_exclude_unset u) in
  let top' := dict_set "meetings" (JList (JDict <$> <[i := m']> ms)) top in
  let s' := Some (json_dump false (JDict top')) in
  reads_back (JDict top') ->
  dict_update m' (MeetingUpdate.model_dump_exclude_unset u) = m'
  /\ (update_meeting meeting_id u s).2 = s'
  /\ update_meeting meeting_id u s' = update_meeting meeting_id u s.
Proof.
  intros H Hf Hv Hnd Hid m' top' s' [Henc Hrb].
  assert (holds s' top' (<[i := m']> ms)) as H'.
  { split; [by unfold s'; rewrite Hrb|apply dict_get_set_eq]. }
  assert (has_id meeting_id m' = true) as Hm'.
  { unfold m'. rewrite (has_id_after_update meeting_id kvs u m Hv Hid).
    apply list_find_Some in Hf as (_ & Hm & _). by apply Is_true_true_1. }
  assert (dict_update m' (MeetingUpdate.model_dump_exclude_unset u) = m') as Hsame.
  { apply dict_update_same. intros k v Hin.
    pose proof (MeetingUpdate_model_dump_NoDup kvs u Hv Hnd) as Hnd'.
    apply dict_get_update_merged; [done|].
    by apply dict_get_elem_NoDup. }
  split_and!; [done| |].
  { rewrite (update_meeting_records s top ms meeting_id u H), Hf.
    cbv zeta. fold m'. fold top'. by rewrite written_ok. }
  rewrite (update_meeting_records s' top' _ meeting_id u H').
  rewrite (list_find_insert_match meeting_id ms i m m' Hf Hm').
  rewrite (update_meeting_records s top ms meeting_id u H), Hf.
  cbv zeta. fold m'. rewrite Hsame.
  rewrite list_insert_insert_eq. unfold top'. by rewrite dict_set_set.
Qed.


Lemma filter_has_no_match (meeting_id : string) (ms : list dict) :
  list_find (fun m => has_id meeting_id m)
    (filter (fun m => ¬ has_id meeting_id m) ms) = None.
Proof.
  apply list_find_None, Forall_forall.
  by intros m [? _]%list_elem_of_filter.
Qed.

(** X14: after a successful delete the id is gone: fetching it answers
    404, and deleting it again answers 404 and leaves the file alone. *)
Theorem delete_then_get_not_found (s : fs) (top : dict) (ms : list dict)
    (meeting_id : string) :
  holds s top ms ->
  Exists (fun m => has_id meeting_id m) ms ->
  let kept := filter (fun m => ¬ has_id meeting_id m) ms in
  let top' := dict_set "meetings" (JList (JDict <$> kept)) top in
  let s' := Some (json_dump false (JDict top')) in
  reads_back (JDict top') ->
  (delete_meeting meeting_id s).2 = s'
  /\ get_meeting_by_id meeting_id s'
     = (Raise (HTTPException 404
                 ("Meeting with ID '" +:+ meeting_id +:+ "' not found")), s')
  /\ delete_meeting meeting_id s'
     = (Raise (HTTPException 404
                 ("Meeting with ID '" +:+ meeting_id +:+ "' not found")), s').
Proof.
  intros H Hex kept top' s' [Henc Hrb].
  assert (holds s' top' kept) as H'.
  { split; [by unfold s'; rewrite Hrb|apply dict_get_set_eq]. }
  split_and!.
  - rewrite (delete_meeting_records s top ms meeting_id H).
    destruct (list_find_Exists meeting_id ms Hex) as [[i m] ->].
    fold kept. fold top'. by rewrite written_ok.
  - rewrite (get_meeting_by_id_records s' top' kept meeting_id H').
    unfold kept. by rewrite filter_has_no_match.
  - rewrite (delete_meeting_records s' top' kept meeting_id H').
    unfold kept. rewrite filter_has_no_match. unfold s'. by rewrite Hrb.
Qed.

(** X15: a delete does not disturb the records of other ids: fetching any
    other id gives after the delete what it gave before. *)
Theorem delete_keeps_other_records (s : fs) (top : dict) (ms : list dict)
    (meeting_id other : string) :
  holds s top ms ->
  Exists (fun m => has_id meeting_id m) ms ->
  other <> meeting_id ->
  let kept := filter (fun m => ¬ has_id meeting_id m) ms in
  let top' := dict_set "meetings" (JList (JDict <$> kept)) top in
  let s' := Some (json_dump false (JDict top')) in
  reads_back (JDict top') ->
  (delete_meeting meeting_id s).2 = s'
  /\ (get_meeting_by_id other s').1 = (get_meeting_by_id other s).1.
Proof.
  intros H Hex Hne kept top' s' [Henc Hrb].
  assert (holds s' top' kept) as H'.
  { split; [by unfold s'; rewrite Hrb|apply dict_get_set_eq]. }
  split.
  - rewrite (delete_meeting_records s top ms meeting_id H).
    destruct (list_find_Exists meeting_id ms Hex) as [[i m] ->].
    fold kept. fold top'. by rewrite written_ok.
  - rewrite (get_meeting_by_id_records s' top' kept other H').
    rewrite (get_meeting_by_id_records s top ms other H).
    pose proof (list_find_filter_other meeting_id other ms Hne) as Hf.
    fold kept in Hf.
    destruct (list_find _ kept) as [[??]|];
      destruct (list_find _ ms) as [[??]|]; simpl in *; congruence.
Qed.

(** X16: a create does not disturb the stored records: the new record goes
    last, so an id that a stored record has is still answered with that
    record, and any id other than the generated one is answered as
    before. *)
Theorem create_keeps_existing_records (s : fs) (top : dict) (ms : list dict)
    (uuid4 : string) (meeting : MeetingCreate.t) :
  holds s top ms ->
  let record := dict_set "id" (JStr uuid4) (MeetingCreate.model_dump meeting) in
  let top' := dict_set "meetings" (JList (JDict <$> (ms ++ [record]))) top in
  let s' := Some (json_dump false (JDict top')) in
  reads_back (JDict top') ->
  (create_meeting uuid4 meeting s).2 = s'
  /\ (forall other i m,
        list_find (fun m => has_id other m) ms = Some (i, m) ->
        get_meeting_by_id other s' = (Ok (JDict m), s'))
  /\ (forall other, other <> uuid4 ->
        (get_meeting_by_id other s').1 = (get_meeting_by_id other s).1).
Proof.
  intros H record top' s' [Henc Hrb].
  assert (holds s' top' (ms ++ [record])) as H'.
  { split; [by unfold s'; rewrite Hrb|apply dict_get_set_eq]. }
  split_and!.
  - by apply create_meeting_state.
  - intros other i m Hf.
    rewrite (get_meeting_by_id_records s' top' _ other H').
    by rewrite (list_find_app_l _ _ [record] _ _ Hf).
  - intros other Hne.
    rewrite (get_meeting_by_id_records s' top' _ other H').
    rewrite (get_meeting_by_id_records s top ms other H).
    destruct (list_find (fun m => has_id other m) ms) as [[i m]|] eqn:Hf.
    + by rewrite (list_find_app_l _ _ [record] _ _ Hf).
    + rewrite list_find_app_r by done. simpl.
      rewrite decide_False; [done|].
      apply Is_true_false_2.
      apply (has_id_other other uuid4); [apply has_id_set|done].
Qed.

(** X17: two creates in a row store both records, in the order of the
    requests, and with distinct generated identifiers each is fetched by
    its own id, also when the two bodies are the same. *)
Theorem two_creates_store_both (s : fs) (top : dict) (ms : list dict)
    (uuid_1 uuid_2 : string) (meeting_1 meeting_2 : MeetingCreate.t) :
  holds s top ms ->
  Forall (fun m => ¬ has_id uuid_1 m) ms ->
  Forall (fun m => ¬ has_id uuid_2 m) ms ->
  uuid_1 <> uuid_2 ->
  let record_1 := dict_set "id" (JStr uuid_1) (MeetingCreate.model_dump meeting_1) in
  let record_2 := dict_set "id" (JStr uuid_2) (MeetingCreate.model_dump meeting_2) in
  let top_1 := dict_set "meetings" (JList (JDict <$> (ms ++ [record_1]))) top in
  let top_2 := dict_set "meetings" (JList (JDict <$> (ms ++ [record_1; record_2]))) top in
  let s_1 := Some (json_dump false (JDict top_1)) in
  let s_2 := Some (json_dump false (JDict top_2)) in
  reads_back (JDict top_1) ->
  reads_back (JDict top_2) ->
  (create_meeting uuid_1 meeting_1 s).2 = s_1
  /\ (create_meeting uuid_2 meeting_2 s_1).2 = s_2
  /\ get_meeting_by_id uuid_1 s_2 = (Ok (JDict record_1), s_2)
  /\ get_meeting_by_id uuid_2 s_2 = (Ok (JDict record_2), s_2)
  /\ record_1 <> record_2.
Proof.
  intros H Hf1 Hf2 Hne record_1 record_2 top_1 top_2 s_1 s_2
    [Henc1 Hrb1] [Henc2 Hrb2].
  assert (has_id uuid_2 record_1 = false) as H21
    by (apply (has_id_other uuid_2 uuid_1); [apply has_id_set|done]).
  assert (holds s_2 top_2 (ms ++ [record_1; record_2])) as H2.
  { split; [by unfold s_2; rewrite Hrb2|apply dict_get_set_eq]. }
  split_and!.
  - by apply create_meeting_state.
  - assert (holds s_1 top_1 (ms ++ [record_1])) as H1.
    { split; [by unfold s_1; rewrite Hrb1|apply dict_get_set_eq]. }
    assert (dict_set "meetings"
              (JList (JDict <$> (ms ++ [record_1]) ++ [record_2])) top_1
            = top_2) as Htop.
    { unfold top_1, top_2. rewrite dict_set_set.
      by rewrite <- (app_assoc ms [record_1] [record_2]). }
    pose proof (create_meeting_state s_1 top_1 (ms ++ [record_1])
                  uuid_2 meeting_2 H1) as Hc.
    cbv zeta in Hc. fold record_2 in Hc. rewrite Htop in Hc. by apply Hc.
  - rewrite (get_meeting_by_id_records s_2 top_2 _ uuid_1 H2).
    rewrite list_find_app_r
      by exact (proj2 (list_find_None (fun m : dict => has_id uuid_1 m) ms) Hf1).
    simpl. rewrite decide_True; [done|].
    apply Is_true_true_2, has_id_set.
  - rewrite (get_meeting_by_id_records s_2 top_2 _ uuid_2 H2).
    rewrite list_find_app_r
      by exact (proj2 (list_find_None (fun m : dict => has_id uuid_2 m) ms) Hf2).
    simpl. rewrite decide_False by (by apply Is_true_false_2).
    rewrite decide_True; [done|]. apply Is_true_true_2, has_id_set.
  - intros Heq. pose proof (has_id_set uuid_2 (MeetingCreate.model_dump meeting_2)) as Ht.
    fold record_2 in Ht. rewrite <- Heq in Ht. congruence.
Qed.

(** X18: a create on a file whose text is blank or is not JSON does not
    fail on that account: the unreadable content is taken for the empty
    collection, and when the new record can be written the file is
    overwritten with a document that holds the new record alone.  (When
    the record cannot be written the create fails with 500 and the
    unreadable content is lost all the same.) *)
Theorem create_on_corrupt_file_starts_over (content text uuid4 : string)
    (meeting : MeetingCreate.t) :
  decode_text content = Ok text ->
  (whitespace_only text = true
   \/ exists msg, json_loads text = Raise (JSONDecodeError msg)) ->
  let record := dict_set "id" (JStr uuid4) (MeetingCreate.model_dump meeting) in
  (encodable (JDict record) = true ->
   create_meeting uuid4 meeting (Some content)
   = (Ok {| SuccessResponse.success := true;
            SuccessResponse.message := "Meeting created successfully";
            SuccessResponse.data := Some (JDict record) |},
      Some (json_dump false (document [record]))))
  /\ (encodable (JDict record) = false ->
      create_meeting uuid4 meeting (Some content)
      = (Raise (HTTPException 500
                  ("Failed to write data: " +:+ surrogates_not_allowed)),
         Some (json_dump_partial (document [record])))).
Proof.
  intros Hd Hbad record.
  assert ((read_data (Some content)).1 = Ok empty_document) as Hr.
  { rewrite read_data_Some, Hd. destruct Hbad as [Hws|[msg Hmsg]].
    - by rewrite (str_strip_whitespace_only _ Hws).
    - rewrite Hmsg. by destruct (str_bool _). }
  pose proof (create_meeting_appends (Some content) [("meetings", JList [])] []
                uuid4 meeting Hr eq_refl) as Hc.
  cbv zeta in Hc. fold record in Hc.
  change (JDict (dict_set "meetings" (JList ([] ++ [JDict record]))
                   [("meetings", JList [])]))
    with (document [record]) in Hc.
  assert (encodable (document [record]) = encodable (JDict record)) as Hdoc.
  { unfold document. cbn [encodable forallb fmap list_fmap].
    change (utf8_valid "meetings") with true.
    by rewrite !andb_true_r. }
  split; intros Henc; rewrite Hc.
  - by rewrite written_ok by (by rewrite Hdoc).
  - by rewrite written_failed by (by rewrite Hdoc).
Qed.

(** X19: creating a meeting and then deleting it by the generated id gives
    back the document that was read before the create. *)
Theorem create_then_delete_restores (s : fs) (top : dict) (ms : list dict)
    (uuid4 : string) (meeting : MeetingCreate.t) :
  holds s top ms ->
  Forall (fun m => ¬ has_id uuid4 m) ms ->
  let record := dict_set "id" (JStr uuid4) (MeetingCreate.model_dump meeting) in
  let top' := dict_set "meetings" (JList (JDict <$> (ms ++ [record]))) top in
  let s' := Some (json_dump false (JDict top')) in
  reads_back (JDict top') ->
  (create_meeting uuid4 meeting s).2 = s'
  /\ delete_meeting uuid4 s'
     = (Ok {| SuccessResponse.success := true;
              SuccessResponse.message := "Meeting deleted successfully";
              SuccessResponse.data := None |},
        Some (json_dump false (JDict top))).
Proof.
  intros H Hfresh record top' s' [Henc Hrb].
  assert (holds s' top' (ms ++ [record])) as H'.
  { split; [by unfold s'; rewrite Hrb|apply dict_get_set_eq]. }
  assert (encodable (JDict top) = true) as Htop.
  { destruct H as [_ Hm].
    apply (encodable_dict_set_2 _ _ _ _ Hm Henc).
    pose proof (encodable_dict_set_1 _ _ _ _ Hm Henc) as Hl.
    rewrite encodable_records, forallb_app in Hl.
    apply andb_prop in Hl as [Hl _]. by rewrite encodable_records. }
  split.
  - by apply create_meeting_state.
  - rewrite (delete_meeting_records s' top' _ uuid4 H').
    rewrite list_find_app_r
      by exact (proj2 (list_find_None (fun m : dict => has_id uuid4 m) ms) Hfresh).
    simpl. rewrite decide_True by (apply Is_true_true_2, has_id_set).
    simpl. rewrite filter_app, (filter_no_match uuid4 ms Hfresh).
    rewrite filter_cons_False
      by (intros Hn; apply Hn; apply Is_true_true_2, has_id_set).
    rewrite filter_nil, app_nil_r. unfold top'. rewrite dict_set_set.
    destruct H as [_ Hm]. rewrite (dict_set_same _ _ _ Hm).
    by rewrite written_ok.
Qed.

(** X20: a record whose "id" is missing or is not a string cannot be
    reached: when no record of the collection has a string id, fetching,
    updating and deleting answer 404 for every path identifier. *)
Theorem records_without_string_id_unreachable (s : fs) (top : dict)
    (ms : list dict) (meeting_id : string) (u : MeetingUpdate.t) :
  holds s top ms ->
  Forall (fun m => forall t, dict_get "id" m <> Some (JStr t)) ms ->
  let fault := HTTPException 404
                 ("Meeting with ID '" +:+ meeting_id +:+ "' not found") in
  get_meeting_by_id meeting_id s = (Raise fault, (read_data s).2)
  /\ update_meeting meeting_id u s = (Raise fault, (read_data s).2)
  /\ delete_meeting meeting_id s = (Raise fault, (read_data s).2).
Proof.
  intros H Hno fault.
  assert (list_find (fun m => has_id meeting_id m) ms = None) as Hf.
  { apply list_find_None. eapply Forall_impl; [exact Hno|].
    intros m Hm Hid. apply Is_true_true_1, has_id_true in Hid.
    by destruct (Hm meeting_id). }
  split_and!.
  - rewrite (get_meeting_by_id_records s top ms meeting_id H), Hf.
    by rewrite read_data_state.
  - by rewrite (update_meeting_records s top ms meeting_id u H), Hf.
  - by rewrite (delete_meeting_records s top ms meeting_id H), Hf.
Qed.


(** X22: when the file holds a JSON object without the "meetings" key, the
    handlers do not repair it: create, update and delete answer 500 with
    the key named in the detail, fetching fails with an exception no
    handler catches (a plain 500), and the file is left as it is. *)
Theorem store_without_meetings_key_faults (s : fs) (top : dict)
    (uuid4 meeting_id : string) (meeting : MeetingCreate.t) (u : MeetingUpdate.t) :
  (read_data s).1 = Ok (JDict top) ->
  dict_get "meetings" top = None ->
  create_meeting uuid4 meeting s
  = (Raise (HTTPException 500 "Failed to create meeting: 'meetings'"),
     (read_data s).2)
  /\ update_meeting meeting_id u s
     = (Raise (HTTPException 500 "Failed to update meeting: 'meetings'"),
        (read_data s).2)
  /\ delete_meeting meeting_id s
     = (Raise (HTTPException 500 "Failed to delete meeting: 'meetings'"),
        (read_data s).2)
  /\ get_meeting_by_id meeting_id s = (Raise (KeyError "meetings"), (read_data s).2)
  /\ GET_meeting meeting_id s = (InternalServerError, (read_data s).2).
Proof.
  intros Hr Hk.
  assert (get_meeting_by_id meeting_id s
          = (Raise (KeyError "meetings"), (read_data s).2)) as Hg.
  { unfold get_meeting_by_id. run.
    destruct (read_data s) as [r s1]. simpl in *. subst r. simpl.
    by rewrite Hk. }
  split_and!.
  - unfold create_meeting. run.
    destruct (read_data s) as [r s1]. simpl in *. subst r. simpl.
    by rewrite Hk.
  - unfold update_meeting. run.
    destruct (read_data s) as [r s1]. simpl in *. subst r. simpl.
    by rewrite Hk.
  - unfold delete_meeting. run.
    destruct (read_data s) as [r s1]. simpl in *. subst r. simpl.
    by rewrite Hk.
  - done.
  - unfold GET_meeting, respond. by rewrite Hg.
Qed.








End Handlers.

(** * The handlers on sample files

    The properties above hold for every JSON codec; here they are applied
    with the reference codec to concrete files and requests. *)

Lemma sample_file_holds (ms : list dict) :
  read_data Json.loads Json.dump Json.dump_partial (Sample.file_of ms)
  = (Ok (document ms), Sample.file_of ms) ->
  holds Json.loads Json.dump Json.dump_partial (Sample.file_of ms) (Sample.top_of ms) ms.
Proof. intros H. split; [by rewrite H|done]. Qed.

(** The chunks of a document make up its text, and the text of a document
    with a lone surrogate stops before the string that holds it. *)
Lemma chunks_of_sample_documents :
  String.concat "" (Json.chunks 0 (document [Sample.meeting_x; Sample.meeting_y]))
  = Json.dump false (document [Sample.meeting_x; Sample.meeting_y])
  /\ Json.dump_partial (document [Sample.meeting_x; Sample.meeting_y])
     = Json.dump false (document [Sample.meeting_x; Sample.meeting_y])
  /\ (exists rest,
        Json.dump false (document [Sample.meeting_s])
        = Json.dump_partial (document [Sample.meeting_s])
          +:+ Json.dump_str false Sample.lone_surrogate +:+ rest).
Proof.
  split_and!; [vm_compute; reflexivity..|].
  eexists. vm_compute. reflexivity.
Qed.

(** C6, as stated, fails on a file that is not text: the byte 0xFF is not
    parseable as JSON, yet [read_data] raises the 500 fault instead of
    returning the empty document, and so does listing. *)
Lemma read_data_binary_garbage_faults :
  (exists msg, Json.loads Sample.binary_garbage = Raise (JSONDecodeError msg))
  /\ (exists detail,
        read_data Json.loads Json.dump Json.dump_partial (Some Sample.binary_garbage)
        = (Raise (HTTPException 500 detail), Some Sample.binary_garbage))
  /\ (read_data Json.loads Json.dump Json.dump_partial (Some Sample.binary_garbage)).1
     <> Ok empty_document
  /\ status_of (GET_meetings Json.loads Json.dump Json.dump_partial (Some Sample.binary_garbage)).1
     = 500%Z.
Proof.
  split_and!.
  - eexists. by vm_compute.
  - eexists. by vm_compute.
  - vm_compute. discriminate.
  - by vm_compute.
Qed.

(** A file of text that is not JSON reads as the empty document. *)
Lemma read_data_tolerates_corrupt_text_witness :
  decode_text "not json {" = Ok "not json {"
  /\ Json.loads "not json {" = Raise (JSONDecodeError "Expecting value")
  /\ read_data Json.loads Json.dump Json.dump_partial (Some "not json {")
     = (Ok empty_document, Some "not json {")
  /\ GET_meetings Json.loads Json.dump Json.dump_partial (Some "not json {")
     = (JSONResponse 200 empty_document, Some "not json {").
Proof.
  split; [reflexivity|]. split; [reflexivity|].
  apply (read_data_tolerates_corrupt_text Json.loads Json.dump Json.dump_partial
           "not json {" "not json {"); [reflexivity|].
  right; right. eexists. reflexivity.
Defined.



(** Deleting an id that no record has: 404, file untouched. *)
Lemma delete_absent_not_found_witness :
  let ms := [Sample.meeting_x; Sample.meeting_y] in
  let s := Sample.file_of ms in
  holds Json.loads Json.dump Json.dump_partial s (Sample.top_of ms) ms
  /\ Forall (fun m => ¬ has_id "z" m) ms
  /\ DELETE_meeting Json.loads Json.dump Json.dump_partial "z" s
     = (JSONResponse 404 (JDict [("detail", JStr "Meeting with ID 'z' not found")]), s).
Proof.
  intros ms s.
  assert (holds Json.loads Json.dump Json.dump_partial s (Sample.top_of ms) ms) as H
    by (apply sample_file_holds; vm_compute; reflexivity).
  assert (Forall (fun m => ¬ has_id "z" m) ms) as Hno
    by (repeat constructor; vm_compute; exact (fun f => f)).
  split; [exact H|]. split; [exact Hno|].
  destruct (delete_absent_not_found Json.loads Json.dump Json.dump_partial s _ ms "z" H Hno)
    as (Hd & _ & _ & _ & _).
  unfold DELETE_meeting, respond. rewrite Hd. vm_compute. reflexivity.
Defined.

(** C4, as stated, fails on a collection with a record that cannot be
    written back: in a file that holds a lone surrogate as the escape
    [\ud800], deleting the record ["x"] answers 500, and the file is left
    with the beginning of the new document, which no longer reads as a
    collection: the record that was to be kept is lost. *)
Lemma delete_with_surrogate_faults :
  let ms := [Sample.meeting_x; Sample.meeting_s] in
  let s := Some (Json.dump true (document ms)) in
  holds Json.loads Json.dump Json.dump_partial s (Sample.top_of ms) ms
  /\ Exists (fun m => has_id "x" m) ms
  /\ status_of (DELETE_meeting Json.loads Json.dump Json.dump_partial "x" s).1 = 500%Z
  /\ (DELETE_meeting Json.loads Json.dump Json.dump_partial "x" s).2
     = Some (Json.dump_partial (document [Sample.meeting_s]))
  /\ (read_data Json.loads Json.dump Json.dump_partial (DELETE_meeting Json.loads Json.dump Json.dump_partial "x" s).2).1 = Ok empty_document
  /\ status_of (GET_meeting Json.loads Json.dump Json.dump_partial "s" (DELETE_meeting Json.loads Json.dump Json.dump_partial "x" s).2).1 = 404%Z.
Proof.
  intros ms s. split_and!.
  - split; [vm_compute; reflexivity|reflexivity].
  - apply Exists_cons_hd. vm_compute. exact I.
  - vm_compute. reflexivity.
  - vm_compute. reflexivity.
  - vm_compute. reflexivity.
  - vm_compute. reflexivity.
Qed.

(** Deleting an id that two records share removes both. *)
Lemma delete_removes_all_matches_witness :
  let ms := [Sample.meeting_x; Sample.meeting_y; Sample.meeting_x2] in
  let s := Sample.file_of ms in
  holds Json.loads Json.dump Json.dump_partial s (Sample.top_of ms) ms
  /\ Exists (fun m => has_id "x" m) ms
  /\ encodable (document [Sample.meeting_y]) = true
  /\ delete_meeting Json.loads Json.dump Json.dump_partial "x" s
     = (Ok {| SuccessResponse.success := true;
              SuccessResponse.message := "Meeting deleted successfully";
              SuccessResponse.data := None |},
        Sample.file_of [Sample.meeting_y])
  /\ holds Json.loads Json.dump Json.dump_partial (Sample.file_of [Sample.meeting_y])
       (Sample.top_of [Sample.meeting_y]) [Sample.meeting_y].
Proof.
  intros ms s.
  assert (holds Json.loads Json.dump Json.dump_partial s (Sample.top_of ms) ms) as H
    by (apply sample_file_holds; vm_compute; reflexivity).
  assert (Exists (fun m => has_id "x" m) ms) as Hex
    by (apply Exists_cons_hd; vm_compute; exact I).
  split; [exact H|]. split; [exact Hex|]. split; [reflexivity|].
  destruct (delete_removes_all_matches Json.loads Json.dump Json.dump_partial s _ ms "x" H Hex)
    as (Hd & _ & _ & _ & Hh).
  split; [exact (Hd eq_refl)|]. apply Hh. split; vm_compute; reflexivity.
Defined.

(** C3, as stated, fails on supplied records that cannot be written: a
    bulk body with a record that holds a lone surrogate validates, the
    request is answered 500, and the file is left with the beginning of
    the document: it holds neither the supplied records nor the old
    ones. *)
Lemma bulk_with_surrogate_faults :
  let s := Sample.file_of [Sample.meeting_x; Sample.meeting_y] in
  let supplied := [Sample.meeting_c; Sample.meeting_s] in
  let after := (POST_meetings_bulk Json.dump Json.dump_partial (document supplied) s).2 in
  MeetingsData.validate (document supplied)
  = Some {| MeetingsData.meetings := supplied |}
  /\ status_of (POST_meetings_bulk Json.dump Json.dump_partial (document supplied) s).1
     = 500%Z
  /\ after = Some (Json.dump_partial (document supplied))
  /\ (read_data Json.loads Json.dump Json.dump_partial after).1 = Ok empty_document
  /\ status_of (GET_meeting Json.loads Json.dump Json.dump_partial "c" after).1 = 404%Z.
Proof.
  split_and!; vm_compute; reflexivity.
Qed.

(** Replacing two records by one: the old ids are gone. *)
Lemma bulk_replace_overwrites_witness :
  let s := Sample.file_of [Sample.meeting_x; Sample.meeting_y] in
  let s' := Sample.file_of [Sample.meeting_c] in
  MeetingsData.validate (document [Sample.meeting_c])
  = Some {| MeetingsData.meetings := [Sample.meeting_c] |}
  /\ reads_back Json.loads Json.dump Json.dump_partial (document [Sample.meeting_c])
  /\ (POST_meetings_bulk Json.dump Json.dump_partial (document [Sample.meeting_c]) s).2 = s'
  /\ read_data Json.loads Json.dump Json.dump_partial s' = (Ok (document [Sample.meeting_c]), s')
  /\ status_of (GET_meeting Json.loads Json.dump Json.dump_partial "x" s').1 = 404%Z
  /\ status_of (GET_meeting Json.loads Json.dump Json.dump_partial "y" s').1 = 404%Z.
Proof.
  intros s s'.
  assert (reads_back Json.loads Json.dump Json.dump_partial (document [Sample.meeting_c])) as Hrb
    by (split; vm_compute; reflexivity).
  destruct (bulk_replace_overwrites Json.loads Json.dump Json.dump_partial s
              (document [Sample.meeting_c])
              {| MeetingsData.meetings := [Sample.meeting_c] |} eq_refl)
    as (Hp & _ & Hafter).
  destruct (Hafter Hrb) as (Hread & _ & Hget).
  split; [reflexivity|]. split; [exact Hrb|].
  split; [by rewrite (Hp (proj1 Hrb))|]. split; [exact Hread|].
  split; apply Hget; repeat constructor; vm_compute; exact (fun f => f).
Defined.






(** Updating record ["x"] with [{id: "y"}] next to a record ["y"]. *)
Lemma update_can_change_id_witness :
  let ms := [Sample.meeting_x; Sample.meeting_y] in
  let s := Sample.file_of ms in
  let renamed := [("id", JStr "y"); ("title", JStr "A"); ("agenda", JStr "B");
                  ("notes", JNull)] in
  holds Json.loads Json.dump Json.dump_partial s (Sample.top_of ms) ms
  /\ list_find (fun m => has_id "x" m) ms = Some (0, Sample.meeting_x)
  /\ MeetingUpdate.validate (JDict Sample.rename_body) = Some Sample.rename_model
  /\ NoDup (dict_keys Sample.rename_body)
  /\ encodable (document [renamed; Sample.meeting_y]) = true
  /\ update_meeting Json.loads Json.dump Json.dump_partial "x" Sample.rename_model s
     = (Ok {| SuccessResponse.success := true;
              SuccessResponse.message := "Meeting updated successfully";
              SuccessResponse.data := Some (JDict renamed) |},
        Sample.file_of [renamed; Sample.meeting_y])
  /\ has_id "x" renamed = false
  /\ has_id "y" renamed = true
  /\ has_id "y" Sample.meeting_y = true.
Proof.
  intros ms s renamed.
  assert (holds Json.loads Json.dump Json.dump_partial s (Sample.top_of ms) ms) as H
    by (apply sample_file_holds; vm_compute; reflexivity).
  assert (NoDup (dict_keys Sample.rename_body)) as Hnd.
  { repeat (apply NoDup_cons_2; [not_in_list|]). apply NoDup_nil_2. }
  destruct (update_can_change_id Json.loads Json.dump Json.dump_partial s _ ms "x"
              Sample.rename_body Sample.rename_model 0 Sample.meeting_x
              (JStr "y") H eq_refl eq_refl Hnd eq_refl)
    as (Hup & _ & _ & Hgone & Hdup).
  split; [exact H|]. split; [reflexivity|]. split; [reflexivity|].
  split; [exact Hnd|]. split; [reflexivity|]. split; [exact (Hup eq_refl)|].
  split; [apply Hgone; discriminate|].
  split; [|reflexivity].
  exact (proj2 (Hdup 1 Sample.meeting_y "y" (fun e => O_S 0 (eq_sym e))
                  eq_refl eq_refl eq_refl)).
Defined.

(** C7 fails on the code: a bulk request whose body is [{}] is answered
    with 422, not 400, and the handler's own 400 is never raised.  (The
    file is left untouched, as the claim says.) *)
Theorem bulk_missing_meetings_answers_422 :
  MeetingsData.validate (JDict []) = None
  /\ POST_meetings_bulk Json.dump Json.dump_partial (JDict [])
       (Sample.file_of [Sample.meeting_x])
     = (RequestValidationError, Sample.file_of [Sample.meeting_x])
  /\ status_of (POST_meetings_bulk Json.dump Json.dump_partial (JDict [])
                  (Sample.file_of [Sample.meeting_x])).1 = 422%Z
  /\ (forall (kvs : dict) (s : fs),
        dict_get "meetings" kvs = None ->
        POST_meetings_bulk Json.dump Json.dump_partial (JDict kvs) s
        = (RequestValidationError, s))
  /\ (forall data : MeetingsData.t, MeetingsData.hasattr_meetings data = true).
Proof.
  split_and!; try reflexivity.
  intros kvs s. apply bulk_without_meetings_rejected.
Qed.

(** * Further properties on sample files *)


(** The first read with no file. *)
Lemma first_read_creates_the_file_witness :
  let text := Json.dump true empty_document in
  decode_text text = Ok text
  /\ str_strip text <> ""
  /\ Json.loads text = Ok empty_document
  /\ read_data Json.loads Json.dump Json.dump_partial None = (Ok empty_document, Some text)
  /\ status_of (GET_meeting Json.loads Json.dump Json.dump_partial "x" None).1 = 404%Z.
Proof.
  intros text.
  assert (decode_text text = Ok text) as Hd by (vm_compute; reflexivity).
  assert (str_strip text <> "") as Hs by (vm_compute; discriminate).
  assert (Json.loads text = Ok empty_document) as Hl by (vm_compute; reflexivity).
  destruct (first_read_creates_the_file Json.loads Json.dump Json.dump_partial text "x" Hd Hs Hl)
    as (Hr & _ & Hg).
  split; [exact Hd|]. split; [exact Hs|]. split; [exact Hl|].
  split; [exact Hr|]. by rewrite Hg.
Defined.


(** The fields of the record made of the sample create body. *)
Lemma created_record_has_every_field_witness :
  MeetingCreate.validate (JDict Sample.create_body) = Some Sample.create_model
  /\ dict_get "time" Sample.create_body = None
  /\ dict_get "time" Sample.created = Some JNull
  /\ dict_get "agenda" Sample.created = Some JNull.
Proof.
  destruct (created_record_has_every_field Sample.uuid Sample.create_body
              Sample.create_model eq_refl) as (_ & Hnull & _).
  split; [reflexivity|]. split; [reflexivity|].
  split; apply Hnull; try reflexivity.
  - unfold meeting_fields. do 2 apply list_elem_of_further. apply list_elem_of_here.
  - unfold meeting_fields. do 4 apply list_elem_of_further. apply list_elem_of_here.
Defined.





(** The update example sent twice. *)
Lemma update_twice_is_update_once_witness :
  let ms := [Sample.meeting_x; Sample.meeting_y] in
  let s := Sample.file_of ms in
  let updated := [("id", JStr "x"); ("title", JStr "C"); ("agenda", JStr "B")] in
  let s' := Sample.file_of [updated; Sample.meeting_y] in
  holds Json.loads Json.dump Json.dump_partial s (Sample.top_of ms) ms
  /\ list_find (fun m => has_id "x" m) ms = Some (0, Sample.meeting_x)
  /\ MeetingUpdate.validate (JDict Sample.update_body) = Some Sample.update_model
  /\ NoDup (dict_keys Sample.update_body)
  /\ dict_get "id" Sample.update_body = None
  /\ reads_back Json.loads Json.dump Json.dump_partial (document [updated; Sample.meeting_y])
  /\ update_meeting Json.loads Json.dump Json.dump_partial "x" Sample.update_model s'
     = update_meeting Json.loads Json.dump Json.dump_partial "x" Sample.update_model s.
Proof.
  intros ms s updated s'.
  assert (holds Json.loads Json.dump Json.dump_partial s (Sample.top_of ms) ms) as H
    by (apply sample_file_holds; vm_compute; reflexivity).
  assert (NoDup (dict_keys Sample.update_body)) as Hnd.
  { repeat (apply NoDup_cons_2; [not_in_list|]). apply NoDup_nil_2. }
  assert (reads_back Json.loads Json.dump Json.dump_partial (document [updated; Sample.meeting_y]))
    as Hrb by (split; vm_compute; reflexivity).
  destruct (update_twice_is_update_once Json.loads Json.dump Json.dump_partial s _ ms "x"
              Sample.update_body Sample.update_model 0 Sample.meeting_x
              H eq_refl eq_refl Hnd eq_refl Hrb)
    as (_ & _ & Htwice).
  split; [exact H|]. split; [reflexivity|]. split; [reflexivity|].
  split; [exact Hnd|]. split; [reflexivity|]. split; [exact Hrb|exact Htwice].
Defined.

(** Deleting "x", then fetching and deleting it again. *)
Lemma delete_then_get_not_found_witness :
  let ms := [Sample.meeting_x; Sample.meeting_y; Sample.meeting_x2] in
  let s := Sample.file_of ms in
  let s' := Sample.file_of [Sample.meeting_y] in
  holds Json.loads Json.dump Json.dump_partial s (Sample.top_of ms) ms
  /\ Exists (fun m => has_id "x" m) ms
  /\ reads_back Json.loads Json.dump Json.dump_partial (document [Sample.meeting_y])
  /\ (delete_meeting Json.loads Json.dump Json.dump_partial "x" s).2 = s'
  /\ get_meeting_by_id Json.loads Json.dump Json.dump_partial "x" s'
     = (Raise (HTTPException 404 "Meeting with ID 'x' not found"), s')
  /\ delete_meeting Json.loads Json.dump Json.dump_partial "x" s'
     = (Raise (HTTPException 404 "Meeting with ID 'x' not found"), s').
Proof.
  intros ms s s'.
  assert (holds Json.loads Json.dump Json.dump_partial s (Sample.top_of ms) ms) as H
    by (apply sample_file_holds; vm_compute; reflexivity).
  assert (Exists (fun m => has_id "x" m) ms) as Hex
    by (apply Exists_cons_hd; vm_compute; exact I).
  assert (reads_back Json.loads Json.dump Json.dump_partial (document [Sample.meeting_y])) as Hrb
    by (split; vm_compute; reflexivity).
  destruct (delete_then_get_not_found Json.loads Json.dump Json.dump_partial s _ ms "x" H Hex Hrb)
    as (Hd & Hg & Hd2).
  split; [exact H|]. split; [exact Hex|]. split; [exact Hrb|].
  split; [exact Hd|]. split; [exact Hg|exact Hd2].
Defined.

(** Deleting "x" leaves "y" where it was. *)
Lemma delete_keeps_other_records_witness :
  let ms := [Sample.meeting_x; Sample.meeting_y; Sample.meeting_x2] in
  let s := Sample.file_of ms in
  let s' := Sample.file_of [Sample.meeting_y] in
  holds Json.loads Json.dump Json.dump_partial s (Sample.top_of ms) ms
  /\ Exists (fun m => has_id "x" m) ms
  /\ reads_back Json.loads Json.dump Json.dump_partial (document [Sample.meeting_y])
  /\ (get_meeting_by_id Json.loads Json.dump Json.dump_partial "y" s).1 = Ok (JDict Sample.meeting_y)
  /\ (get_meeting_by_id Json.loads Json.dump Json.dump_partial "y" s').1
     = (get_meeting_by_id Json.loads Json.dump Json.dump_partial "y" s).1.
Proof.
  intros ms s s'.
  assert (holds Json.loads Json.dump Json.dump_partial s (Sample.top_of ms) ms) as H
    by (apply sample_file_holds; vm_compute; reflexivity).
  assert (Exists (fun m => has_id "x" m) ms) as Hex
    by (apply Exists_cons_hd; vm_compute; exact I).
  assert (reads_back Json.loads Json.dump Json.dump_partial (document [Sample.meeting_y])) as Hrb
    by (split; vm_compute; reflexivity).
  assert ("y" <> "x") as Hne by discriminate.
  destruct (delete_keeps_other_records Json.loads Json.dump Json.dump_partial s _ ms "x" "y"
              H Hex Hne Hrb) as [_ Hsame].
  split; [exact H|]. split; [exact Hex|]. split; [exact Hrb|].
  split; [vm_compute; reflexivity|exact Hsame].
Defined.

(** A create leaves "x" and "y" where they were. *)
Lemma create_keeps_existing_records_witness :
  let ms := [Sample.meeting_x; Sample.meeting_y] in
  let s := Sample.file_of ms in
  let s' := Sample.file_of (ms ++ [Sample.created]) in
  holds Json.loads Json.dump Json.dump_partial s (Sample.top_of ms) ms
  /\ reads_back Json.loads Json.dump Json.dump_partial (document (ms ++ [Sample.created]))
  /\ (create_meeting Json.loads Json.dump Json.dump_partial Sample.uuid Sample.create_model s).2 = s'
  /\ get_meeting_by_id Json.loads Json.dump Json.dump_partial "y" s' = (Ok (JDict Sample.meeting_y), s').
Proof.
  intros ms s s'.
  assert (holds Json.loads Json.dump Json.dump_partial s (Sample.top_of ms) ms) as H
    by (apply sample_file_holds; vm_compute; reflexivity).
  assert (reads_back Json.loads Json.dump Json.dump_partial (document (ms ++ [Sample.created])))
    as Hrb by (split; vm_compute; reflexivity).
  destruct (create_keeps_existing_records Json.loads Json.dump Json.dump_partial s _ ms Sample.uuid
              Sample.create_model H Hrb) as (Hc & Hkeep & _).
  split; [exact H|]. split; [exact Hrb|]. split; [exact Hc|].
  exact (Hkeep "y" 1 Sample.meeting_y eq_refl).
Defined.

(** The same body created twice, with two generated identifiers. *)
Lemma two_creates_store_both_witness :
  let ms := [Sample.meeting_x] in
  let s := Sample.file_of ms in
  let record_1 := Sample.created in
  let record_2 :=
    dict_set "id" (JStr Sample.uuid_2) (MeetingCreate.model_dump Sample.create_model) in
  let s_2 := Sample.file_of [Sample.meeting_x; record_1; record_2] in
  holds Json.loads Json.dump Json.dump_partial s (Sample.top_of ms) ms
  /\ Forall (fun m => ¬ has_id Sample.uuid m) ms
  /\ Forall (fun m => ¬ has_id Sample.uuid_2 m) ms
  /\ Sample.uuid <> Sample.uuid_2
  /\ reads_back Json.loads Json.dump Json.dump_partial (document [Sample.meeting_x; record_1])
  /\ reads_back Json.loads Json.dump Json.dump_partial (document [Sample.meeting_x; record_1; record_2])
  /\ get_meeting_by_id Json.loads Json.dump Json.dump_partial Sample.uuid s_2 = (Ok (JDict record_1), s_2)
  /\ get_meeting_by_id Json.loads Json.dump Json.dump_partial Sample.uuid_2 s_2 = (Ok (JDict record_2), s_2).
Proof.
  intros ms s record_1 record_2 s_2.
  assert (holds Json.loads Json.dump Json.dump_partial s (Sample.top_of ms) ms) as H
    by (apply sample_file_holds; vm_compute; reflexivity).
  assert (Forall (fun m => ¬ has_id Sample.uuid m) ms) as Hf1
    by (repeat constructor; vm_compute; exact (fun f => f)).
  assert (Forall (fun m => ¬ has_id Sample.uuid_2 m) ms) as Hf2
    by (repeat constructor; vm_compute; exact (fun f => f)).
  assert (Sample.uuid <> Sample.uuid_2) as Hne by discriminate.
  assert (reads_back Json.loads Json.dump Json.dump_partial (document [Sample.meeting_x; record_1]))
    as Hrb1 by (split; vm_compute; reflexivity).
  assert (reads_back Json.loads Json.dump Json.dump_partial
            (document [Sample.meeting_x; record_1; record_2]))
    as Hrb2 by (split; vm_compute; reflexivity).
  destruct (two_creates_store_both Json.loads Json.dump Json.dump_partial s _ ms Sample.uuid
              Sample.uuid_2 Sample.create_model Sample.create_model
              H Hf1 Hf2 Hne Hrb1 Hrb2) as (_ & _ & Hg1 & Hg2 & _).
  split; [exact H|]. split; [exact Hf1|]. split; [exact Hf2|].
  split; [exact Hne|]. split; [exact Hrb1|]. split; [exact Hrb2|].
  split; [exact Hg1|exact Hg2].
Defined.

(** A create on a file of text that is not JSON. *)
Lemma create_on_corrupt_file_starts_over_witness :
  decode_text "not json {" = Ok "not json {"
  /\ Json.loads "not json {" = Raise (JSONDecodeError "Expecting value")
  /\ encodable (JDict Sample.created) = true
  /\ create_meeting Json.loads Json.dump Json.dump_partial Sample.uuid Sample.create_model
       (Some "not json {")
     = (Ok {| SuccessResponse.success := true;
              SuccessResponse.message := "Meeting created successfully";
              SuccessResponse.data := Some (JDict Sample.created) |},
        Sample.file_of [Sample.created]).
Proof.
  split; [reflexivity|]. split; [reflexivity|]. split; [reflexivity|].
  refine (proj1 (create_on_corrupt_file_starts_over
                   Json.loads Json.dump Json.dump_partial
                   "not json {" "not json {" Sample.uuid Sample.create_model
                   eq_refl _) eq_refl).
  right. eexists. reflexivity.
Defined.

(** A create undone by a delete. *)
Lemma create_then_delete_restores_witness :
  let ms := [Sample.meeting_x; Sample.meeting_y] in
  let s := Sample.file_of ms in
  let s' := Sample.file_of (ms ++ [Sample.created]) in
  holds Json.loads Json.dump Json.dump_partial s (Sample.top_of ms) ms
  /\ Forall (fun m => ¬ has_id Sample.uuid m) ms
  /\ reads_back Json.loads Json.dump Json.dump_partial (document (ms ++ [Sample.created]))
  /\ delete_meeting Json.loads Json.dump Json.dump_partial Sample.uuid s'
     = (Ok {| SuccessResponse.success := true;
              SuccessResponse.message := "Meeting deleted successfully";
              SuccessResponse.data := None |}, s).
Proof.
  intros ms s s'.
  assert (holds Json.loads Json.dump Json.dump_partial s (Sample.top_of ms) ms) as H
    by (apply sample_file_holds; vm_compute; reflexivity).
  assert (Forall (fun m => ¬ has_id Sample.uuid m) ms) as Hfresh
    by (repeat constructor; vm_compute; exact (fun f => f)).
  assert (reads_back Json.loads Json.dump Json.dump_partial (document (ms ++ [Sample.created])))
    as Hrb by (split; vm_compute; reflexivity).
  destruct (create_then_delete_restores Json.loads Json.dump Json.dump_partial s _ ms Sample.uuid
              Sample.create_model H Hfresh Hrb) as [_ Hd].
  split; [exact H|]. split; [exact Hfresh|]. split; [exact Hrb|exact Hd].
Defined.

(** A collection of two records without a string id. *)
Lemma records_without_string_id_unreachable_witness :
  let ms := [Sample.meeting_no_id; Sample.meeting_number_id] in
  let s := Sample.file_of ms in
  holds Json.loads Json.dump Json.dump_partial s (Sample.top_of ms) ms
  /\ Forall (fun m => forall t, dict_get "id" m <> Some (JStr t)) ms
  /\ get_meeting_by_id Json.loads Json.dump Json.dump_partial "7" s
     = (Raise (HTTPException 404 "Meeting with ID '7' not found"), s)
  /\ delete_meeting Json.loads Json.dump Json.dump_partial "7" s
     = (Raise (HTTPException 404 "Meeting with ID '7' not found"), s).
Proof.
  intros ms s.
  assert (holds Json.loads Json.dump Json.dump_partial s (Sample.top_of ms) ms) as H
    by (apply sample_file_holds; vm_compute; reflexivity).
  assert (Forall (fun m => forall t, dict_get "id" m <> Some (JStr t)) ms) as Hno
    by (repeat constructor; intros t; discriminate).
  destruct (records_without_string_id_unreachable Json.loads Json.dump Json.dump_partial s _ ms "7"
              Sample.update_model H Hno) as (Hg & _ & Hd).
  split; [exact H|]. split; [exact Hno|].
  split; [rewrite Hg|rewrite Hd]; vm_compute; reflexivity.
Defined.


(** A file holding the JSON object [{}]. *)
Lemma store_without_meetings_key_faults_witness :
  let s := Some (Json.dump false (JDict [])) in
  (read_data Json.loads Json.dump Json.dump_partial s).1 = Ok (JDict [])
  /\ create_meeting Json.loads Json.dump Json.dump_partial Sample.uuid Sample.create_model s
     = (Raise (HTTPException 500 "Failed to create meeting: 'meetings'"), s)
  /\ GET_meeting Json.loads Json.dump Json.dump_partial "x" s = (InternalServerError, s).
Proof.
  intros s.
  assert ((read_data Json.loads Json.dump Json.dump_partial s).1 = Ok (JDict [])) as Hr
    by (vm_compute; reflexivity).
  destruct (store_without_meetings_key_faults Json.loads Json.dump Json.dump_partial s []
              Sample.uuid "x" Sample.create_model Sample.update_model Hr eq_refl)
    as (Hc & _ & _ & _ & Hg).
  split; [exact Hr|].
  split; [rewrite Hc|rewrite Hg]; vm_compute; reflexivity.
Defined.

